(** * ace-cron: the cron translation core of [src/cron-expression-builder.tsx]

    A shallow embedding of [cronUtils] (lines 141-219 of the source):
    [parseExpression], [generateExpression] and [humanReadable], together
    with the JavaScript built-ins they call ([String.prototype.split],
    [padStart], [parseInt], [Array.prototype.join], template literals,
    [||] and [===]).

    Strings are sequences of UTF-16 code units, as in JavaScript, so that
    [length], [split] and [padStart] count what the source counts.

    Numbers are doubles in JavaScript.  The core only ever produces
    [NaN] and integer-valued numbers (results of [parseInt]), and the
    specification gives a configuration integer fields, so a number is
    [NaN] or [Int z], the double nearest to the integer [z].  [x === n],
    truthiness and array indexing are exact on this reading for every
    [z]; [String(x)] is written as the decimal digits of [z], which is
    what JavaScript prints up to 2^53 in magnitude (every token of up to
    fifteen digits) and is not modelled beyond.  The two zeros [+0] and
    [-0] are both [Int 0]: nothing the core does tells them apart.

    The [CronBuilder] component (lines 221-458) is modelled by its five
    [useState] cells and by its event handlers, each a function from the
    current state and the payload of the event to the next state and the
    expression handed to [onChange].  [startTransition] runs its callback
    at once, so the expression is the one generated in the handler; what
    React renders and when is not modelled.

    To speak about where the core indexes an array, the three functions
    also come in a logged form that records every element access [a[e]]
    by a computed index. *)

From Stdlib Require Import List NArith ZArith Bool Lia Ascii String.
From Stdlib Require Import Sorted Permutation.
Import ListNotations.

Local Open Scope N_scope.

(** ** JavaScript strings *)

Definition char := N.
Definition jsstring := list char.

(** A literal of the source, as its code units. *)
Definition str (s : string) : jsstring :=
  List.map N_of_ascii (list_ascii_of_string s).

(** [a === b] on strings. *)
Fixpoint streq (a b : jsstring) : bool :=
  match a, b with
  | [], [] => true
  | x :: a', y :: b' => (x =? y) && streq a' b'
  | _, _ => false
  end.

(** [s.split(sep)] for a one-code-unit separator: cuts at every
    occurrence, keeps empty pieces, and always returns at least one
    piece. *)
Fixpoint split (sep : char) (s : jsstring) : list jsstring :=
  match s with
  | [] => [[]]
  | c :: s' =>
      if c =? sep then [] :: split sep s'
      else match split sep s' with
           | [] => [[c]]
           | w :: ws => (c :: w) :: ws
           end
  end.

(** [a.join(sep)] on an array whose elements are already strings. *)
Fixpoint join (sep : jsstring) (l : list jsstring) : jsstring :=
  match l with
  | [] => []
  | [x] => x
  | x :: l' => x ++ sep ++ join sep l'
  end.

(** [s.padStart(n, fill)] for a one-code-unit filler. *)
Definition padStart (n : nat) (fill : char) (s : jsstring) : jsstring :=
  repeat fill (n - List.length s) ++ s.

(** ** JavaScript numbers *)

Inductive number : Type :=
| NaN : number
| Int : Z -> number.

Definition number_eqb (a b : number) : bool :=
  match a, b with
  | Int x, Int y => Z.eqb x y
  | _, _ => false
  end.

(** Truthiness of a number: [NaN] and zero are falsy. *)
Definition truthy (a : number) : bool :=
  match a with
  | NaN => false
  | Int z => negb (Z.eqb z 0)
  end.

Definition digit_char (d : N) : char := 48 + d.

(** Decimal digits of [n], most significant first, pushed in front of
    [acc]; [fuel] bounds the number of further digits. *)
Fixpoint to_digits (fuel : nat) (n : N) (acc : jsstring) : jsstring :=
  let acc' := digit_char (n mod 10) :: acc in
  match fuel with
  | O => acc'
  | S f => if n / 10 =? 0 then acc' else to_digits f (n / 10) acc'
  end.

Definition N_to_string (n : N) : jsstring :=
  to_digits (N.to_nat (N.size n)) n [].

(** [String(x)], which is also what a template literal and [join] apply
    to a number. *)
Definition number_to_string (a : number) : jsstring :=
  match a with
  | NaN => str "NaN"
  | Int z =>
      if (z <? 0)%Z then str "-" ++ N_to_string (Z.abs_N z)
      else N_to_string (Z.abs_N z)
  end.

(** White space and line terminators skipped by [parseInt]. *)
Definition is_js_space (c : char) : bool :=
  (9 <=? c) && (c <=? 13) || (c =? 32) || (c =? 160) || (c =? 5760)
  || (8192 <=? c) && (c <=? 8202) || (c =? 8232) || (c =? 8233)
  || (c =? 8239) || (c =? 8287) || (c =? 12288) || (c =? 65279).

Fixpoint trim_start (s : jsstring) : jsstring :=
  match s with
  | c :: s' => if is_js_space c then trim_start s' else s
  | [] => []
  end.

(** Value of a code unit as a digit in the given radix. *)
Definition digit_val (radix : N) (c : char) : option N :=
  let v :=
    if (48 <=? c) && (c <=? 57) then Some (c - 48)
    else if (97 <=? c) && (c <=? 122) then Some (c - 87)
    else if (65 <=? c) && (c <=? 90) then Some (c - 55)
    else None in
  match v with
  | Some d => if d <? radix then Some d else None
  | None => None
  end.

(** Reads the longest prefix of radix digits; [acc] is [None] until a
    digit has been read. *)
Fixpoint parse_digits (radix : N) (s : jsstring) (acc : option N) : option N :=
  match s with
  | [] => acc
  | c :: s' =>
      match digit_val radix c with
      | Some d =>
          parse_digits radix s'
            (Some (match acc with Some a => a * radix + d | None => d end))
      | None => acc
      end
  end.

(** [parseInt(s)] with no radix argument: leading white space, an
    optional sign, an optional [0x] / [0X] prefix that selects radix 16,
    then the longest run of digits; [NaN] when that run is empty. *)
Definition strip_sign (s : jsstring) : bool * jsstring :=
  match s with
  | c :: r =>
      if c =? 45 then (true, r) else if c =? 43 then (false, r) else (false, s)
  | [] => (false, s)
  end.

Definition strip_prefix (s : jsstring) : N * jsstring :=
  match s with
  | c :: x :: r =>
      if (c =? 48) && ((x =? 120) || (x =? 88)) then (16, r) else (10, s)
  | _ => (10, s)
  end.

Definition parseInt (s : jsstring) : number :=
  let '(neg, s2) := strip_sign (trim_start s) in
  let '(radix, s3) := strip_prefix s2 in
  match parse_digits radix s3 None with
  | None => NaN
  | Some v => Int (if neg then - Z.of_N v else Z.of_N v)
  end.

(** ** The schedule configuration *)

(** [interface CronConfig].  [type] is kept as the string it is at run
    time: [handleTypeChange] casts an arbitrary string into it, and the
    [switch] statements have a [default] arm for that. *)
Record CronConfig : Type := mkConfig {
  type : jsstring;
  time : option jsstring;
  days : option (list number);
  day : option number;
  expression : option jsstring
}.

(** [`${x}`] for a possibly undefined string / number. *)
Definition tmpl_string (x : option jsstring) : jsstring :=
  match x with
  | Some s => s
  | None => str "undefined"
  end.

Definition tmpl_number (x : option number) : jsstring :=
  match x with
  | Some a => number_to_string a
  | None => str "undefined"
  end.

(** [x || dflt] on an optional string: undefined and the empty string
    are falsy. *)
Definition or_string (x : option jsstring) (dflt : jsstring) : jsstring :=
  match x with
  | Some (c :: s) => c :: s
  | _ => dflt
  end.

(** [x || dflt] on an optional number. *)
Definition or_number (x : option number) (dflt : number) : number :=
  match x with
  | Some a => if truthy a then a else dflt
  | None => dflt
  end.

(** [x || []] on an optional array (every array is truthy). *)
Definition or_array {A : Type} (x : option (list A)) : list A :=
  match x with
  | Some l => l
  | None => []
  end.

(** [`${hour.padStart(2, '0')}:${minute.padStart(2, '0')}`] *)
Definition time_of (hour minute : jsstring) : jsstring :=
  padStart 2 48 hour ++ str ":" ++ padStart 2 48 minute.

Definition star : jsstring := str "*".

(** ** cronUtils.parseExpression *)

Definition parseExpression (cron : jsstring) : option CronConfig :=
  match split 32 cron with
  | [minute; hour; day; month; weekday] =>
      if streq minute (str "0") && streq hour (str "0") && streq day star
         && streq month star && streq weekday star
      then Some (mkConfig (str "daily") (Some (str "00:00")) None None None)
      else if negb (streq minute star) && negb (streq hour star)
              && streq day star && streq month star && streq weekday star
      then Some (mkConfig (str "daily") (Some (time_of hour minute))
                   None None None)
      else if negb (streq minute star) && negb (streq hour star)
              && streq day star && streq month star
              && negb (streq weekday star)
      then Some (mkConfig (str "weekly") (Some (time_of hour minute))
                   (Some (List.map parseInt (split 44 weekday))) None None)
      else if negb (streq minute star) && negb (streq hour star)
              && negb (streq day star) && streq month star
              && streq weekday star
      then Some (mkConfig (str "monthly") (Some (time_of hour minute))
                   None (Some (parseInt day)) None)
      else Some (mkConfig (str "custom") None None None (Some cron))
  | _ => None
  end.

(** ** cronUtils.generateExpression *)

(** [const [hour, minute] = (time || '00:00').split(':').map(parseInt)]:
    a component the split does not provide is [undefined]. *)
Definition time_fields (c : CronConfig) : option number * option number :=
  let parts := List.map parseInt (split 58 (or_string (time c) (str "00:00"))) in
  (nth_error parts 0, nth_error parts 1).

Definition generateExpression (config : CronConfig) : jsstring :=
  let '(hour, minute) := time_fields config in
  if streq (type config) (str "daily") then
    tmpl_number minute ++ str " " ++ tmpl_number hour ++ str " * * *"
  else if streq (type config) (str "weekly") then
    let daysList :=
      join (str ",") (List.map number_to_string (or_array (days config))) in
    tmpl_number minute ++ str " " ++ tmpl_number hour ++ str " * * " ++ daysList
  else if streq (type config) (str "monthly") then
    tmpl_number minute ++ str " " ++ tmpl_number hour ++ str " "
      ++ number_to_string (or_number (day config) (Int 1)) ++ str " * *"
  else if streq (type config) (str "custom") then
    or_string (expression config) (str "0 0 * * *")
  else str "0 0 * * *".

(** ** cronUtils.humanReadable *)

Definition dayNames : list jsstring :=
  [str "Sunday"; str "Monday"; str "Tuesday"; str "Wednesday";
   str "Thursday"; str "Friday"; str "Saturday"].

(** [a[d]] for a number [d]: an element when [d] is an integer index
    inside the array, [undefined] otherwise. *)
Definition index {A : Type} (a : list A) (d : number) : option A :=
  match d with
  | Int z => if (0 <=? z)%Z then nth_error a (Z.to_nat z) else None
  | NaN => None
  end.

(** [join] renders an undefined element as the empty string. *)
Definition join_elem (x : option jsstring) : jsstring :=
  match x with
  | Some s => s
  | None => []
  end.

(** [config.day === n] *)
Definition day_is (d : option number) (n : Z) : bool :=
  match d with
  | Some a => number_eqb a (Int n)
  | None => false
  end.

Definition ordinal_suffix (d : option number) : jsstring :=
  if day_is d 1 then str "st"
  else if day_is d 2 then str "nd"
  else if day_is d 3 then str "rd"
  else str "th".

Definition describe (config : CronConfig) : jsstring :=
  if streq (type config) (str "daily") then
    str "Daily at " ++ tmpl_string (time config)
  else if streq (type config) (str "weekly") then
    let daysList :=
      join (str ", ")
        (List.map (fun d => join_elem (index dayNames d))
           (or_array (days config))) in
    str "Weekly on " ++ daysList ++ str " at " ++ tmpl_string (time config)
  else if streq (type config) (str "monthly") then
    str "Monthly on the " ++ tmpl_number (day config)
      ++ ordinal_suffix (day config) ++ str " at " ++ tmpl_string (time config)
  else if streq (type config) (str "custom") then
    str "Custom: " ++ tmpl_string (expression config)
  else str "Invalid schedule".

Definition humanReadable (cron : jsstring) : jsstring :=
  match parseExpression cron with
  | None => str "Invalid cron expression"
  | Some config => describe config
  end.

(** ** The variant parser of the refinement claim *)

(** Rules 2-5 of [parseExpression] applied to the five fields: the body
    of the source function from its second [if] on. *)
Definition classify (cron minute hour day month weekday : jsstring)
  : CronConfig :=
  if negb (streq minute star) && negb (streq hour star)
     && streq day star && streq month star && streq weekday star
  then mkConfig (str "daily") (Some (time_of hour minute)) None None None
  else if negb (streq minute star) && negb (streq hour star)
          && streq day star && streq month star
          && negb (streq weekday star)
  then mkConfig (str "weekly") (Some (time_of hour minute))
         (Some (List.map parseInt (split 44 weekday))) None None
  else if negb (streq minute star) && negb (streq hour star)
          && negb (streq day star) && streq month star
          && streq weekday star
  then mkConfig (str "monthly") (Some (time_of hour minute))
         None (Some (parseInt day)) None
  else mkConfig (str "custom") None None None (Some cron).

(** [parseExpression] with the [0 0 * * *] branch deleted. *)
Definition parseExpression_merged (cron : jsstring) : option CronConfig :=
  match split 32 cron with
  | [minute; hour; day; month; weekday] =>
      Some (classify cron minute hour day month weekday)
  | _ => None
  end.

(** ** Notions of the specification *)

Definition is_whitespace (c : char) : bool :=
  (c =? 32) || (9 <=? c) && (c <=? 13).

(** The white-space-separated fields of a string: its maximal runs of
    characters that are not white space. *)
Fixpoint ws_fields (s : jsstring) : list jsstring :=
  match s with
  | [] => []
  | c :: s' =>
      if is_whitespace c then ws_fields s'
      else match s' with
           | [] => [[c]]
           | c' :: _ =>
               if is_whitespace c' then [c] :: ws_fields s'
               else match ws_fields s' with
                    | w :: ws => (c :: w) :: ws
                    | [] => [[c]]
                    end
           end
  end.

Definition is_digit (c : char) : bool := (48 <=? c) && (c <=? 57).

(** A numeric token: one decimal digit or more. *)
Definition numeric (t : jsstring) : bool :=
  match t with
  | [] => false
  | _ :: _ => forallb is_digit t
  end.

(** The number a string of decimal digits denotes. *)
Definition decimal_value (s : jsstring) : N :=
  fold_left (fun a c => a * 10 + (c - 48)) s 0.

(** The day names as the specification lists them, Sunday first. *)
Definition weekday_name (k : Z) : jsstring :=
  match k with
  | 0%Z => str "Sunday"
  | 1%Z => str "Monday"
  | 2%Z => str "Tuesday"
  | 3%Z => str "Wednesday"
  | 4%Z => str "Thursday"
  | 5%Z => str "Friday"
  | 6%Z => str "Saturday"
  | _ => []
  end.


(** A number below one hundred written with exactly two digits. *)
Definition two_digits (n : N) : jsstring :=
  [digit_char (n / 10); digit_char (n mod 10)].

(** The zero-padded time ["HH:MM"]. *)
Definition hhmm (h m : N) : jsstring :=
  two_digits h ++ str ":" ++ two_digits m.

Definition valid_time (t : option jsstring) : Prop :=
  exists h m : N, h < 24 /\ m < 60 /\ t = Some (hhmm h m).

(** The configurations the round-trip contract speaks about. *)
Definition valid_config (c : CronConfig) : Prop :=
  valid_time (time c)
  /\ (type c = str "daily"
      \/ (type c = str "monthly"
          /\ exists k : Z, (1 <= k <= 31)%Z /\ day c = Some (Int k))
      \/ (type c = str "weekly"
          /\ exists ks : list Z,
               ks <> [] /\ Forall (fun k => (0 <= k <= 6)%Z) ks
               /\ days c = Some (List.map Int ks))).

(** Same kind, same time, and the same day of month or weekdays where
    the kind has them. *)
Definition same_schedule (c c' : CronConfig) : Prop :=
  type c' = type c /\ time c' = time c
  /\ (type c = str "monthly" -> day c' = day c)
  /\ (type c = str "weekly" -> days c' = days c).

(** ** The CronBuilder component: state and event handlers *)

(** [a.includes(x)] compares with SameValueZero: [NaN] is found. *)
Definition same_value_zero (a b : number) : bool :=
  match a, b with
  | NaN, NaN => true
  | Int x, Int y => Z.eqb x y
  | _, _ => false
  end.

Definition includes (a : list number) (x : number) : bool :=
  existsb (fun e => same_value_zero e x) a.

(** [a < b] on strings: code unit by code unit, a proper prefix first. *)
Fixpoint str_ltb (a b : jsstring) : bool :=
  match a, b with
  | _, [] => false
  | [], _ :: _ => true
  | x :: a', y :: b' =>
      if x <? y then true else if y <? x then false else str_ltb a' b'
  end.

(** [a.sort()] with no comparator orders the elements by [String(x)]
    and is stable.  Inserting each element in front of the first one
    that is not smaller builds that arrangement. *)
Fixpoint insert_sorted (x : number) (l : list number) : list number :=
  match l with
  | [] => [x]
  | y :: l' =>
      if str_ltb (number_to_string y) (number_to_string x)
      then y :: insert_sorted x l'
      else x :: y :: l'
  end.

Definition sort_default (l : list number) : list number :=
  fold_right insert_sorted [] l.

(** The five [useState] cells of [CronBuilder]. *)
Record BuilderState : Type := mkState {
  scheduleType : jsstring;
  time' : jsstring;
  selectedDays : list number;
  monthDay : number;
  customExpression : jsstring
}.

(** The state at mount: [useMemo] parses [value], which defaults to
    ['0 0 * * *'], and each [useState] takes its initial value from the
    result. *)
Definition initialState (value : option jsstring) : BuilderState :=
  let value := match value with Some v => v | None => str "0 0 * * *" end in
  let config :=
    match parseExpression value with
    | Some c => c
    | None => mkConfig (str "daily") (Some (str "00:00")) None None None
    end in
  mkState (type config)
    (or_string (time config) (str "00:00"))
    (or_array (days config))
    (or_number (day config) (Int 1))
    (or_string (expression config) (str "0 0 * * *")).

(** Each handler yields the next state and the expression it passes to
    [onChange] through [updateCron], if any. *)
Definition handleTypeChange (s : BuilderState) (newType : option jsstring)
  : BuilderState * option jsstring :=
  match newType with
  | Some t =>
      (mkState t (time' s) (selectedDays s) (monthDay s) (customExpression s),
       Some (generateExpression
               (mkConfig t (Some (time' s)) (Some (selectedDays s))
                  (Some (monthDay s)) (Some (customExpression s)))))
  | None => (s, None)
  end.

Definition handleTimeChange (s : BuilderState) (newTime : jsstring)
  : BuilderState * jsstring :=
  (mkState (scheduleType s) newTime (selectedDays s) (monthDay s)
     (customExpression s),
   generateExpression
     (mkConfig (scheduleType s) (Some newTime) (Some (selectedDays s))
        (Some (monthDay s)) None)).

(** [newDays] of [toggleDay]. *)
Definition toggled (selectedDays : list number) (dayIndex : number)
  : list number :=
  if includes selectedDays dayIndex
  then filter (fun d => negb (number_eqb d dayIndex)) selectedDays
  else sort_default (selectedDays ++ [dayIndex]).

Definition toggleDay (s : BuilderState) (dayIndex : number)
  : BuilderState * jsstring :=
  let newDays := toggled (selectedDays s) dayIndex in
  (mkState (scheduleType s) (time' s) newDays (monthDay s)
     (customExpression s),
   generateExpression
     (mkConfig (scheduleType s) (Some (time' s)) (Some newDays)
        (Some (monthDay s)) None)).

Definition handleMonthDayChange (s : BuilderState) (text : jsstring)
  : BuilderState * jsstring :=
  let newDay := parseInt text in
  (mkState (scheduleType s) (time' s) (selectedDays s) newDay
     (customExpression s),
   generateExpression
     (mkConfig (scheduleType s) (Some (time' s)) (Some (selectedDays s))
        (Some newDay) None)).

Definition handleCustomExpressionChange (s : BuilderState) (text : jsstring)
  : BuilderState * jsstring :=
  (mkState (scheduleType s) (time' s) (selectedDays s) (monthDay s) text,
   generateExpression (mkConfig (str "custom") None None None (Some text))).

(** ** Notions used to describe the component *)

(** The canonical expressions of the three structured kinds. *)
Definition daily_cron (m h : N) : jsstring :=
  N_to_string m ++ str " " ++ N_to_string h ++ str " * * *".

Definition monthly_cron (m h k : N) : jsstring :=
  N_to_string m ++ str " " ++ N_to_string h ++ str " " ++ N_to_string k
  ++ str " * *".

Definition weekly_cron (m h : N) (ns : list N) : jsstring :=
  N_to_string m ++ str " " ++ N_to_string h ++ str " * * "
  ++ join (str ",") (List.map N_to_string ns).

(** A selection of weekdays as the day buttons keep it: integers from 0
    to 6 in strictly ascending order. *)
Definition weekday_selection (ks : list Z) : Prop :=
  StronglySorted Z.lt ks /\ Forall (fun k => (0 <= k <= 6)%Z) ks.

(** An integer that a JavaScript number holds exactly and prints digit
    by digit: below 2^53 in magnitude. *)
Definition safe_N (n : N) : Prop := n < 2 ^ 53.

Definition safe_number (a : number) : Prop :=
  match a with
  | NaN => True
  | Int z => (Z.abs z < 2 ^ 53)%Z
  end.

(** An expression the generator prints for a Daily, Monthly or Weekly
    configuration with plain integer fields, every number being one that
    JavaScript holds exactly. *)
Definition canonical (cron : jsstring) : Prop :=
  (exists m h : N, safe_N m /\ safe_N h /\ cron = daily_cron m h)
  \/ (exists m h k : N,
         safe_N m /\ safe_N h /\ safe_N k /\ k <> 0
         /\ cron = monthly_cron m h k)
  \/ (exists (m h : N) (ns : list N),
         safe_N m /\ safe_N h /\ Forall safe_N ns /\ ns <> []
         /\ cron = weekly_cron m h ns).

(** Code units that never occur in a printed number: the separators of
    the cron syntax and the wildcard. *)
Definition reserved (x : char) : Prop := x = 32 \/ x = 42 \/ x = 44.

(** A token zero-padded to two characters, case by case: nothing gives
    ["00"], one character gets one ["0"] in front, anything longer is
    left alone. *)
Definition zero_padded (s : jsstring) : jsstring :=
  match s with
  | [] => [48; 48]
  | [c] => [48; c]
  | _ :: _ :: _ => s
  end.

(** ** Element reads as an effect *)















(** ** Concrete behaviour on the scenarios of the specification *)

Example parse_midnight :
  parseExpression (str "0 0 * * *")
  = Some (mkConfig (str "daily") (Some (str "00:00")) None None None).
Proof. reflexivity. Qed.

Example parse_monthly_15 :
  parseExpression (str "0 0 15 * *")
  = Some (mkConfig (str "monthly") (Some (str "00:00")) None
            (Some (Int 15)) None).
Proof. reflexivity. Qed.

Example generate_weekly_135 :
  generateExpression
    (mkConfig (str "weekly") (Some (str "09:00"))
       (Some [Int 1; Int 3; Int 5]) None None)
  = str "0 9 * * 1,3,5".
Proof. reflexivity. Qed.

Example parseInt_samples :
  parseInt (str "09") = Int 9 /\ parseInt (str " -0x1Fz") = Int (-31)
  /\ parseInt (str "") = NaN /\ parseInt (str "0x") = NaN
  /\ parseInt (str "12abc") = Int 12 /\ parseInt (str "-0") = Int 0.
Proof. repeat split; reflexivity. Qed.

(** ** Strings: equality, [split] and [join] *)

Lemma streq_spec (a b : jsstring) : streq a b = true <-> a = b.
Proof.
  revert b; induction a as [|x a IH]; intros [|y b]; simpl;
    try (split; [discriminate | intros H; inversion H]); try tauto.
  rewrite andb_true_iff, N.eqb_eq, IH.
  split; [intros [-> ->]; reflexivity | intros H; inversion H; auto].
Qed.

Lemma streq_neq (a b : jsstring) : a <> b -> streq a b = false.
Proof.
  intros H; destruct (streq a b) eqn:E; [|reflexivity].
  apply streq_spec in E; contradiction.
Qed.

Section SplitJoin.

Variable sep : char.

Lemma split_not_nil (s : jsstring) : split sep s <> [].
Proof.
  destruct s as [|c s]; simpl; [discriminate|].
  destruct (c =? sep); [discriminate|].
  destruct (split sep s); discriminate.
Qed.

(** A string without the separator is a single piece. *)
Lemma split_free (s : jsstring) : ~ In sep s -> split sep s = [s].
Proof.
  induction s as [|c s IH]; simpl; intros H; [reflexivity|].
  destruct (N.eqb_spec c sep) as [->|_]; [exfalso; auto|].
  rewrite IH by tauto. reflexivity.
Qed.

(** The first separator ends the first piece. *)
Lemma split_app (a b : jsstring) :
  ~ In sep a -> split sep (a ++ sep :: b) = a :: split sep b.
Proof.
  induction a as [|c a IH]; simpl; intros H.
  - rewrite N.eqb_refl; reflexivity.
  - destruct (N.eqb_spec c sep) as [->|_]; [exfalso; auto|].
    rewrite IH by tauto. reflexivity.
Qed.

(** Splitting undoes joining, for a non-empty list of separator-free
    pieces. *)
Lemma split_join (l : list jsstring) :
  l <> [] -> Forall (fun s => ~ In sep s) l ->
  split sep (join [sep] l) = l.
Proof.
  induction l as [|x l IH]; intros Hne Hall; [contradiction|].
  inversion Hall as [|? ? Hx Hl]; subst.
  destruct l as [|y l].
  - simpl. apply split_free; assumption.
  - change (join [sep] (x :: y :: l)) with (x ++ sep :: join [sep] (y :: l)).
    rewrite split_app by assumption.
    rewrite IH; [reflexivity | discriminate | assumption].
Qed.

(** Joining undoes splitting, always. *)
Lemma join_split (s : jsstring) : join [sep] (split sep s) = s.
Proof.
  induction s as [|c s IH]; [reflexivity|].
  cbn [split]. destruct (N.eqb_spec c sep) as [->|_].
  - pose proof (split_not_nil s) as Hne.
    destruct (split sep s) as [|w ws]; [contradiction|].
    cbn [join app] in *. rewrite IH. reflexivity.
  - pose proof (split_not_nil s) as Hne.
    destruct (split sep s) as [|w ws]; [contradiction|].
    destruct ws as [|w' ws]; cbn [join app] in *; rewrite <- IH; reflexivity.
Qed.

(** No piece of a split holds the separator. *)
Lemma split_pieces_free (s : jsstring) :
  Forall (fun w => ~ In sep w) (split sep s).
Proof.
  induction s as [|c s IH]; [repeat constructor; auto|].
  cbn [split]. destruct (N.eqb_spec c sep) as [->|Hc].
  - constructor; [intros []| assumption].
  - destruct (split sep s) as [|w ws]; [repeat constructor; simpl; tauto|].
    inversion IH; subst. constructor; [|assumption].
    simpl; intros [E|E]; [congruence | contradiction].
Qed.

End SplitJoin.

Lemma in_join (x : char) (sep : jsstring) (l : list jsstring) :
  In x (join sep l) -> In x sep \/ exists s, In s l /\ In x s.
Proof.
  induction l as [|a l IH]; simpl; [tauto|].
  destruct l as [|b l].
  - intros H; right; exists a; auto.
  - rewrite !in_app_iff. intros [H|[H|H]].
    + right; exists a; auto.
    + left; assumption.
    + destruct (IH H) as [H'|[s [Hs Hx]]]; [left; assumption|].
      right; exists s; split; [right|]; assumption.
Qed.

(** ** Numbers: [String(n)] and [parseInt] *)

Ltac bool_to_prop :=
  repeat rewrite ?orb_true_iff, ?andb_true_iff, ?N.leb_le, ?N.ltb_lt,
    ?N.eqb_eq in *.

(** Settles [b = false] for a boolean combination [b] of comparisons
    that linear arithmetic refutes. *)
Ltac bool_false :=
  match goal with
  | |- ?b = false =>
      let E := fresh "E" in
      destruct b eqn:E; [exfalso; bool_to_prop; lia | reflexivity]
  end.

Lemma is_digit_spec (c : char) : is_digit c = true <-> 48 <= c <= 57.
Proof. unfold is_digit; bool_to_prop; tauto. Qed.

Lemma digit_char_is_digit (d : N) : d < 10 -> is_digit (digit_char d) = true.
Proof. intros H; apply is_digit_spec; unfold digit_char; lia. Qed.

Lemma digit_val_digit_char (d : N) :
  d < 10 -> digit_val 10 (digit_char d) = Some d.
Proof.
  intros H; unfold digit_val, digit_char.
  replace ((48 <=? 48 + d) && (48 + d <=? 57)) with true
    by (symmetry; bool_to_prop; lia).
  replace (48 + d - 48) with d by lia.
  apply N.ltb_lt in H; rewrite H; reflexivity.
Qed.

Lemma to_digits_not_nil (fuel : nat) (n : N) (acc : jsstring) :
  to_digits fuel n acc <> [].
Proof.
  revert n acc; induction fuel as [|f IH]; intros n acc; simpl;
    [discriminate|].
  destruct (n / 10 =? 0); [discriminate | apply IH].
Qed.

Lemma to_digits_all_digits (fuel : nat) (n : N) (acc : jsstring) :
  Forall (fun c => is_digit c = true) acc ->
  Forall (fun c => is_digit c = true) (to_digits fuel n acc).
Proof.
  assert (D : forall m, is_digit (digit_char (m mod 10)) = true)
    by (intros m; apply digit_char_is_digit, N.mod_lt; lia).
  revert n acc; induction fuel as [|f IH]; intros n acc H; simpl.
  - constructor; auto.
  - destruct (n / 10 =? 0); [constructor; auto|].
    apply IH; constructor; auto.
Qed.

(** Reading back the digits written by [to_digits] yields the number, as
    long as the fuel covers its size. *)
Lemma parse_to_digits (fuel : nat) :
  forall (n : N) (acc : jsstring),
    n < 2 ^ N.of_nat fuel ->
    parse_digits 10 (to_digits fuel n acc) None
    = parse_digits 10 acc (Some n).
Proof.
  induction fuel as [|f IH]; intros n acc Hn.
  - simpl in Hn. assert (n = 0) by lia; subst n. reflexivity.
  - cbn [to_digits].
    assert (Hm : n mod 10 < 10) by (apply N.mod_lt; lia).
    pose proof (N.div_mod n 10 ltac:(lia)) as Hdm.
    destruct (N.eqb_spec (n / 10) 0) as [Hz|Hnz].
    + cbn [parse_digits]. rewrite digit_val_digit_char by assumption.
      do 2 f_equal. lia.
    + rewrite IH.
      * cbn [parse_digits]. rewrite digit_val_digit_char by assumption.
        do 2 f_equal. lia.
      * rewrite Nat2N.inj_succ, N.pow_succ_r' in Hn.
        apply N.Div0.div_lt_upper_bound. lia.
Qed.

Lemma N_to_string_not_nil (n : N) : N_to_string n <> [].
Proof. apply to_digits_not_nil. Qed.

Lemma N_to_string_digits (n : N) :
  Forall (fun c => is_digit c = true) (N_to_string n).
Proof. apply to_digits_all_digits; constructor. Qed.

Lemma parse_N_to_string (n : N) :
  parse_digits 10 (N_to_string n) None = Some n.
Proof.
  unfold N_to_string. rewrite parse_to_digits; [reflexivity|].
  rewrite N2Nat.id. apply N.size_gt.
Qed.

Lemma trim_start_digit (c : char) (s : jsstring) :
  is_digit c = true -> trim_start (c :: s) = c :: s.
Proof.
  intros H; apply is_digit_spec in H. cbn [trim_start].
  replace (is_js_space c) with false; [reflexivity|].
  symmetry; unfold is_js_space; bool_false.
Qed.

Lemma strip_sign_digit (c : char) (s : jsstring) :
  is_digit c = true -> strip_sign (c :: s) = (false, c :: s).
Proof.
  intros H; apply is_digit_spec in H. unfold strip_sign.
  replace (c =? 45) with false by (symmetry; bool_false).
  replace (c =? 43) with false by (symmetry; bool_false).
  reflexivity.
Qed.

Lemma strip_prefix_digits (s : jsstring) :
  Forall (fun c => is_digit c = true) s -> strip_prefix s = (10, s).
Proof.
  intros H. destruct s as [|c [|x r]]; try reflexivity.
  inversion H as [|? ? _ H']; inversion H' as [|? ? Hx _]; subst.
  apply is_digit_spec in Hx. unfold strip_prefix.
  replace ((x =? 120) || (x =? 88)) with false by (symmetry; bool_false).
  rewrite andb_false_r; reflexivity.
Qed.

(** On a non-empty string of decimal digits, [parseInt] is the decimal
    reading. *)
Lemma parseInt_digits (s : jsstring) :
  s <> [] -> Forall (fun c => is_digit c = true) s ->
  parseInt s = match parse_digits 10 s None with
               | Some v => Int (Z.of_N v)
               | None => NaN
               end.
Proof.
  intros Hne H. destruct s as [|c s]; [contradiction|].
  assert (Hc : is_digit c = true) by (inversion H; assumption).
  unfold parseInt.
  rewrite trim_start_digit, strip_sign_digit, strip_prefix_digits by assumption.
  reflexivity.
Qed.

Lemma parseInt_N_to_string (n : N) : parseInt (N_to_string n) = Int (Z.of_N n).
Proof.
  rewrite parseInt_digits
    by (apply N_to_string_not_nil || apply N_to_string_digits).
  rewrite parse_N_to_string; reflexivity.
Qed.

(** [parseInt(String(z)) === z] for every integer [z]. *)
Lemma parseInt_number_to_string (z : Z) :
  parseInt (number_to_string (Int z)) = Int z.
Proof.
  unfold number_to_string. destruct (Z.ltb_spec z 0) as [Hneg|Hpos].
  - change (str "-" ++ N_to_string (Z.abs_N z))
      with (45 :: N_to_string (Z.abs_N z)).
    unfold parseInt.
    change (trim_start (45 :: N_to_string (Z.abs_N z)))
      with (45 :: N_to_string (Z.abs_N z)).
    change (strip_sign (45 :: N_to_string (Z.abs_N z)))
      with (true, N_to_string (Z.abs_N z)).
    cbv beta iota.
    rewrite strip_prefix_digits by apply N_to_string_digits.
    rewrite parse_N_to_string. f_equal. lia.
  - rewrite parseInt_N_to_string. f_equal. lia.
Qed.

(** ** The parser, rule by rule *)

Lemma parseExpression_classify (cron minute hour day month weekday : jsstring) :
  split 32 cron = [minute; hour; day; month; weekday] ->
  parseExpression cron = Some (classify cron minute hour day month weekday).
Proof.
  intros H. unfold parseExpression. rewrite H.
  destruct (streq minute (str "0") && streq hour (str "0") && streq day star
            && streq month star && streq weekday star) eqn:E.
  2: { unfold classify.
       repeat match goal with
              | |- context [if ?b then _ else _] => destruct b
              end; reflexivity. }
  repeat rewrite andb_true_iff in E.
  destruct E as [[[[Hm Hh] Hd] Hmo] Hw].
  apply streq_spec in Hm, Hh, Hd, Hmo, Hw. subst.
  reflexivity.
Qed.

Lemma parseExpression_none (cron : jsstring) :
  parseExpression cron = None <-> List.length (split 32 cron) <> 5%nat.
Proof.
  destruct (split 32 cron) as [|a [|b [|c [|d [|e [|f l]]]]]] eqn:E;
    try (unfold parseExpression; rewrite E; simpl; split;
         [intros _; lia | reflexivity]).
  rewrite (parseExpression_classify _ _ _ _ _ _ E). simpl.
  split; [discriminate | intros H; exfalso; apply H; reflexivity].
Qed.

Example ws_fields_sample :
  ws_fields (str "  30 14 *   * 1,3,5 ")
  = [str "30"; str "14"; star; star; str "1,3,5"].
Proof. reflexivity. Qed.

(** ** Claims about the parser *)

(** C2, as the specification states it, fails: five fields separated by
    tab characters are five white-space-separated fields, yet the parser
    returns null, because it cuts at the space character only. *)
Lemma parse_tab_separated_is_null :
  let cron := [48; 9; 48; 9; 42; 9; 42; 9; 42] in
  ws_fields cron = [str "0"; str "0"; star; star; star]
  /\ List.length (ws_fields cron) = 5%nat
  /\ parseExpression cron = None.
Proof. repeat split. Qed.

(** The other direction fails too: a leading space makes four fields
    parse, and doubled spaces make five fields fail. *)
Example parse_space_runs :
  List.length (ws_fields (str " 0 0 * *")) = 4%nat
  /\ parseExpression (str " 0 0 * *")
     = Some (mkConfig (str "monthly") (Some (str "00:00")) None
               (Some (Int 0)) None)
  /\ List.length (ws_fields (str "0 0  * * *")) = 5%nat
  /\ parseExpression (str "0 0  * * *") = None.
Proof. repeat split. Qed.

(** C2 (amended): [parseExpression] returns null exactly when cutting the
    input at every space character (U+0020) does not give exactly five
    pieces, empty pieces included; whenever it gives five pieces, the
    parser returns a configuration. *)
Theorem parse_null_iff_not_five_pieces :
  forall cron : jsstring,
    (parseExpression cron = None <-> List.length (split 32 cron) <> 5%nat)
    /\ (List.length (split 32 cron) = 5%nat ->
        exists c, parseExpression cron = Some c).
Proof.
  intros cron. split; [apply parseExpression_none|].
  intros H. destruct (parseExpression cron) as [c|] eqn:E; [eauto|].
  apply parseExpression_none in E. contradiction.
Qed.

(** C8: deleting the first rule of [parseExpression] changes nothing:
    the variant without the [0 0 * * *] branch returns the same result
    on every input. *)
Theorem first_rule_redundant :
  forall cron : jsstring, parseExpression_merged cron = parseExpression cron.
Proof.
  intros cron. unfold parseExpression_merged.
  destruct (split 32 cron) as [|a [|b [|c [|d [|e [|f l]]]]]] eqn:E;
    try (unfold parseExpression; rewrite E; reflexivity).
  symmetry. apply parseExpression_classify. assumption.
Qed.

Lemma classify_daily (cron minute hour : jsstring) :
  minute <> star -> hour <> star ->
  classify cron minute hour star star star
  = mkConfig (str "daily") (Some (time_of hour minute)) None None None.
Proof.
  intros Hm Hh. unfold classify.
  rewrite (streq_neq _ _ Hm), (streq_neq _ _ Hh). reflexivity.
Qed.

Lemma classify_weekly (cron minute hour weekday : jsstring) :
  minute <> star -> hour <> star -> weekday <> star ->
  classify cron minute hour star star weekday
  = mkConfig (str "weekly") (Some (time_of hour minute))
      (Some (List.map parseInt (split 44 weekday))) None None.
Proof.
  intros Hm Hh Hw. unfold classify.
  rewrite (streq_neq _ _ Hm), (streq_neq _ _ Hh), (streq_neq _ _ Hw).
  reflexivity.
Qed.

Lemma classify_monthly (cron minute hour day : jsstring) :
  minute <> star -> hour <> star -> day <> star ->
  classify cron minute hour day star star
  = mkConfig (str "monthly") (Some (time_of hour minute)) None
      (Some (parseInt day)) None.
Proof.
  intros Hm Hh Hd. unfold classify.
  rewrite (streq_neq _ _ Hm), (streq_neq _ _ Hh), (streq_neq _ _ Hd).
  reflexivity.
Qed.



Lemma numeric_spec (t : jsstring) :
  numeric t = true <-> t <> [] /\ Forall (fun c => is_digit c = true) t.
Proof.
  destruct t as [|c t]; [simpl; split; [discriminate | intros [H _]; auto]|].
  unfold numeric. rewrite forallb_forall, Forall_forall.
  split; [intros H; split; [discriminate | exact H] | intros [_ H]; exact H].
Qed.

Lemma digit_val_digit (c : char) :
  is_digit c = true -> digit_val 10 c = Some (c - 48).
Proof.
  intros H. unfold digit_val. fold (is_digit c). rewrite H.
  apply is_digit_spec in H.
  replace (c - 48 <? 10) with true by (symmetry; bool_to_prop; lia).
  reflexivity.
Qed.

Lemma parse_digits_fold (s : jsstring) :
  Forall (fun c => is_digit c = true) s ->
  forall a, parse_digits 10 s (Some a)
            = Some (fold_left (fun a c => a * 10 + (c - 48)) s a).
Proof.
  induction 1 as [|c s Hc _ IH]; intros a; [reflexivity|].
  cbn [parse_digits fold_left]. rewrite digit_val_digit by assumption.
  apply IH.
Qed.

Lemma parseInt_numeric (t : jsstring) :
  numeric t = true -> parseInt t = Int (Z.of_N (decimal_value t)).
Proof.
  intros H. apply numeric_spec in H. destruct H as [Hne Hd].
  rewrite parseInt_digits by assumption.
  destruct t as [|c t]; [contradiction|].
  inversion Hd as [|? ? Hc Ht]; subst.
  cbn [parse_digits]. rewrite digit_val_digit by assumption.
  rewrite parse_digits_fold by assumption.
  unfold decimal_value. cbn [fold_left]. reflexivity.
Qed.

Lemma digits_exclude (x : char) (s : jsstring) :
  is_digit x = false -> Forall (fun c => is_digit c = true) s -> ~ In x s.
Proof.
  intros Hx Hs Hin. rewrite Forall_forall in Hs.
  specialize (Hs _ Hin). congruence.
Qed.

(** A comma-joined list of digit strings holds digits and commas only. *)
Lemma join_digits_exclude (x : char) (toks : list jsstring) :
  is_digit x = false -> x <> 44 ->
  Forall (fun t => Forall (fun c => is_digit c = true) t) toks ->
  ~ In x (join (str ",") toks).
Proof.
  intros Hx Hc Hall Hin. change (str ",") with [44] in Hin.
  apply in_join in Hin.
  destruct Hin as [[H|[]]|[s [Hs Hin]]]; [congruence|].
  rewrite Forall_forall in Hall.
  exact (digits_exclude x s Hx (Hall _ Hs) Hin).
Qed.

Lemma padStart_zero_padded (s : jsstring) : padStart 2 48 s = zero_padded s.
Proof. destruct s as [|a [|b r]]; reflexivity. Qed.

(** C4: a five-piece input with concrete minute and hour, ["*"] for day
    and month, and a weekday piece made of numeric tokens joined by
    commas parses as Weekly; its time is the hour and the minute piece,
    each zero-padded to two characters (["9"] becomes ["09"]), around a
    colon; its weekdays are the tokens read as integers, in the order
    given, repetitions kept. *)
Theorem parse_weekly_tokens :
  forall (cron minute hour : jsstring) (toks : list jsstring),
    split 32 cron = [minute; hour; star; star; join (str ",") toks] ->
    minute <> star -> hour <> star ->
    toks <> [] -> Forall (fun t => numeric t = true) toks ->
    parseExpression cron
    = Some (mkConfig (str "weekly")
              (Some (zero_padded hour ++ str ":" ++ zero_padded minute))
              (Some (List.map (fun t => Int (Z.of_N (decimal_value t))) toks))
              None None).
Proof.
  intros cron minute hour toks H Hm Hh Hne Hnum.
  assert (Hd : Forall (fun t => Forall (fun c => is_digit c = true) t) toks).
  { eapply Forall_impl; [|exact Hnum].
    intros t Ht; apply numeric_spec in Ht; tauto. }
  assert (Hw : join (str ",") toks <> star).
  { intros E. apply (join_digits_exclude 42 toks); auto; [discriminate|].
    rewrite E; left; reflexivity. }
  rewrite (parseExpression_classify _ _ _ _ _ _ H).
  rewrite classify_weekly by assumption.
  unfold time_of. rewrite !padStart_zero_padded.
  change (str ",") with [44].
  rewrite split_join.
  - do 3 f_equal. apply map_ext_in. intros t Ht.
    rewrite Forall_forall in Hnum. apply parseInt_numeric; auto.
  - assumption.
  - eapply Forall_impl; [|exact Hd].
    intros t Ht; apply digits_exclude; [reflexivity | assumption].
Qed.

Lemma parse_weekly_tokens_witness :
  parseExpression (str "30 14 * * 1,3,5")
  = Some (mkConfig (str "weekly") (Some (str "14:30"))
            (Some [Int 1; Int 3; Int 5]) None None)
  /\ parseExpression (str "5 9 * * 1")
     = Some (mkConfig (str "weekly") (Some (str "09:05")) (Some [Int 1])
               None None).
Proof.
  split.
  - apply (parse_weekly_tokens (str "30 14 * * 1,3,5") (str "30") (str "14")
             [str "1"; str "3"; str "5"]);
      [reflexivity | discriminate | discriminate | discriminate
      | repeat constructor].
  - apply (parse_weekly_tokens (str "5 9 * * 1") (str "5") (str "9")
             [str "1"]);
      [reflexivity | discriminate | discriminate | discriminate
      | repeat constructor].
Defined.

(** Order and repetitions survive: nothing is sorted or removed. *)
Example parse_weekly_unsorted :
  parseExpression (str "0 9 * * 5,1,1")
  = Some (mkConfig (str "weekly") (Some (str "09:00"))
            (Some [Int 5; Int 1; Int 1]) None None).
Proof. reflexivity. Qed.

(** ** Claims about the humanizer *)

Lemma describe_not_invalid (c : CronConfig) :
  describe c <> str "Invalid cron expression".
Proof.
  unfold describe.
  repeat match goal with
         | |- context [if ?b then _ else _] => destruct b
         end; cbn; discriminate.
Qed.

(** C5: [humanReadable] answers ["Invalid cron expression"] exactly when
    [parseExpression] fails, which is exactly when the input does not cut
    into five pieces; ["not a cron"] is such an input. *)
Theorem invalid_iff_parse_fails :
  forall cron : jsstring,
    (humanReadable cron = str "Invalid cron expression"
     <-> parseExpression cron = None)
    /\ (humanReadable cron = str "Invalid cron expression"
        <-> List.length (split 32 cron) <> 5%nat)
    /\ humanReadable (str "not a cron") = str "Invalid cron expression".
Proof.
  intros cron.
  assert (A : humanReadable cron = str "Invalid cron expression"
              <-> parseExpression cron = None).
  { unfold humanReadable. destruct (parseExpression cron) as [c|].
    - split; [intros H; elim (describe_not_invalid c H) | discriminate].
    - split; reflexivity. }
  split; [exact A|]. split; [|reflexivity].
  rewrite A. apply parseExpression_none.
Qed.

(** What the Weekly arm of [humanReadable] prints. *)
Lemma humanReadable_weekly (cron : jsstring) (c : CronConfig) :
  parseExpression cron = Some c -> type c = str "weekly" ->
  humanReadable cron
  = str "Weekly on "
    ++ join (str ", ")
         (List.map (fun d => join_elem (index dayNames d)) (or_array (days c)))
    ++ str " at " ++ tmpl_string (time c).
Proof.
  intros H Hty. unfold humanReadable, describe. rewrite H, Hty. reflexivity.
Qed.

(** What the Monthly arm of [humanReadable] prints. *)
Lemma humanReadable_monthly (cron : jsstring) (c : CronConfig) :
  parseExpression cron = Some c -> type c = str "monthly" ->
  humanReadable cron
  = str "Monthly on the " ++ tmpl_number (day c) ++ ordinal_suffix (day c)
    ++ str " at " ++ tmpl_string (time c).
Proof.
  intros H Hty. unfold humanReadable, describe. rewrite H, Hty. reflexivity.
Qed.

Lemma index_dayNames (k : Z) :
  (0 <= k <= 6)%Z -> index dayNames (Int k) = Some (weekday_name k).
Proof.
  intros H.
  assert (E : (k = 0 \/ k = 1 \/ k = 2 \/ k = 3 \/ k = 4 \/ k = 5 \/ k = 6)%Z)
    by lia.
  repeat (destruct E as [E|E]; [subst k; reflexivity|]).
  subst k; reflexivity.
Qed.

(** C6: when the input parses as Weekly and every weekday entry is an
    integer from 0 to 6, [humanReadable] prints ["Weekly on "], the names
    of the entries in the order the entries come, separated by [", "],
    then [" at "] and the time. *)
Theorem weekly_description :
  forall (cron : jsstring) (c : CronConfig) (t : jsstring) (ks : list Z),
    parseExpression cron = Some c ->
    type c = str "weekly" ->
    time c = Some t ->
    days c = Some (List.map Int ks) ->
    Forall (fun k => (0 <= k <= 6)%Z) ks ->
    humanReadable cron
    = str "Weekly on " ++ join (str ", ") (List.map weekday_name ks)
      ++ str " at " ++ t.
Proof.
  intros cron c t ks H Hty Ht Hd Hr.
  rewrite (humanReadable_weekly cron c H Hty), Hd, Ht.
  cbn [or_array tmpl_string]. rewrite map_map.
  rewrite (map_ext_in _ weekday_name); [reflexivity|].
  intros k Hk. rewrite Forall_forall in Hr.
  rewrite index_dayNames by auto. reflexivity.
Qed.

Lemma weekly_description_witness :
  humanReadable (str "0 9 * * 1,3,5")
  = str "Weekly on Monday, Wednesday, Friday at 09:00".
Proof.
  apply (weekly_description (str "0 9 * * 1,3,5")
           (mkConfig (str "weekly") (Some (str "09:00"))
              (Some [Int 1; Int 3; Int 5]) None None)
           (str "09:00") [1; 3; 5]%Z);
    [reflexivity | reflexivity | reflexivity | reflexivity
    | repeat constructor; lia].
Defined.

(** The listing follows the input, not the calendar. *)
Example weekly_description_unsorted :
  humanReadable (str "0 9 * * 5,1,1")
  = str "Weekly on Friday, Monday, Monday at 09:00".
Proof. reflexivity. Qed.

Lemma number_eqb_spec (d : number) (n : Z) :
  number_eqb d (Int n) = true <-> d = Int n.
Proof.
  destruct d as [|z]; simpl; [split; discriminate|].
  rewrite Z.eqb_eq. split; [intros ->; reflexivity | intros E; inversion E; auto].
Qed.

(** C7: the Monthly arm prints the day followed by ["st"] exactly for
    day 1, ["nd"] exactly for day 2, ["rd"] exactly for day 3 and ["th"]
    for every other value, whatever its last digit. *)
Theorem monthly_ordinal_suffix :
  forall (cron : jsstring) (c : CronConfig) (t : jsstring) (d : number),
    parseExpression cron = Some c ->
    type c = str "monthly" ->
    time c = Some t ->
    day c = Some d ->
    humanReadable cron
    = str "Monthly on the " ++ number_to_string d ++ ordinal_suffix (Some d)
      ++ str " at " ++ t
    /\ (ordinal_suffix (Some d) = str "st" <-> d = Int 1)
    /\ (ordinal_suffix (Some d) = str "nd" <-> d = Int 2)
    /\ (ordinal_suffix (Some d) = str "rd" <-> d = Int 3)
    /\ (ordinal_suffix (Some d) = str "th"
        <-> d <> Int 1 /\ d <> Int 2 /\ d <> Int 3).
Proof.
  intros cron c t d H Hty Ht Hd.
  split.
  { rewrite (humanReadable_monthly cron c H Hty), Hd, Ht. reflexivity. }
  unfold ordinal_suffix, day_is.
  pose proof (number_eqb_spec d 1) as H1.
  pose proof (number_eqb_spec d 2) as H2.
  pose proof (number_eqb_spec d 3) as H3.
  destruct (number_eqb d (Int 1)) eqn:E1.
  { assert (d = Int 1) by (apply H1; reflexivity). subst d.
    repeat split; intros; try discriminate; try reflexivity; tauto. }
  destruct (number_eqb d (Int 2)) eqn:E2.
  { assert (d = Int 2) by (apply H2; reflexivity). subst d.
    repeat split; intros; try discriminate; try reflexivity; tauto. }
  destruct (number_eqb d (Int 3)) eqn:E3.
  { assert (d = Int 3) by (apply H3; reflexivity). subst d.
    repeat split; intros; try discriminate; try reflexivity; tauto. }
  assert (N1 : d <> Int 1) by (intros E; apply H1 in E; discriminate).
  assert (N2 : d <> Int 2) by (intros E; apply H2 in E; discriminate).
  assert (N3 : d <> Int 3) by (intros E; apply H3 in E; discriminate).
  repeat split; intros; try discriminate; try reflexivity; try contradiction;
    auto.
Qed.

Lemma monthly_ordinal_suffix_witness :
  humanReadable (str "0 0 15 * *") = str "Monthly on the 15th at 00:00".
Proof.
  apply (monthly_ordinal_suffix (str "0 0 15 * *")
           (mkConfig (str "monthly") (Some (str "00:00")) None
              (Some (Int 15)) None)
           (str "00:00") (Int 15));
    reflexivity.
Defined.

(** Days whose English ordinal is irregular still get ["th"], and a day
    piece that is not a number prints as [NaN]. *)
Example monthly_th_samples :
  humanReadable (str "0 0 11 * *") = str "Monthly on the 11th at 00:00"
  /\ humanReadable (str "0 0 12 * *") = str "Monthly on the 12th at 00:00"
  /\ humanReadable (str "0 0 13 * *") = str "Monthly on the 13th at 00:00"
  /\ humanReadable (str "0 0 21 * *") = str "Monthly on the 21th at 00:00"
  /\ humanReadable (str "0 0 31 * *") = str "Monthly on the 31th at 00:00"
  /\ humanReadable (str "0 0 1 * *") = str "Monthly on the 1st at 00:00"
  /\ humanReadable (str "0 0 2 * *") = str "Monthly on the 2nd at 00:00"
  /\ humanReadable (str "0 0 3 * *") = str "Monthly on the 3rd at 00:00"
  /\ humanReadable (str "0 0 xy * *") = str "Monthly on the NaNth at 00:00".
Proof. repeat split. Qed.













(** ** Round trip through the generator and the parser *)

Lemma to_digits_small (fuel : nat) (n : N) (acc : jsstring) :
  n < 10 -> to_digits fuel n acc = digit_char n :: acc.
Proof.
  intros H. destruct fuel; cbn [to_digits];
    rewrite N.mod_small by assumption; [reflexivity|].
  rewrite N.div_small by assumption. reflexivity.
Qed.

Lemma N_to_string_below_100 (n : N) :
  n < 100 -> padStart 2 48 (N_to_string n) = two_digits n.
Proof.
  intros H. unfold N_to_string, two_digits.
  destruct (N.lt_ge_cases n 10) as [Hs|Hb].
  - rewrite to_digits_small by assumption.
    rewrite N.div_small, N.mod_small by assumption. reflexivity.
  - assert (Hq : n / 10 < 10) by (apply N.Div0.div_lt_upper_bound; lia).
    assert (Hq0 : n / 10 <> 0).
    { intros E. pose proof (N.div_mod n 10 ltac:(lia)).
      pose proof (N.mod_lt n 10 ltac:(lia)). lia. }
    destruct (N.to_nat (N.size n)) as [|f] eqn:Ef.
    + exfalso. destruct n as [|p]; [lia|]. simpl in Ef. lia.
    + cbn [to_digits]. apply N.eqb_neq in Hq0. rewrite Hq0.
      rewrite to_digits_small by assumption. reflexivity.
Qed.

Lemma two_digits_numeric (n : N) : n < 100 -> numeric (two_digits n) = true.
Proof.
  intros H. unfold numeric, two_digits. cbn [forallb].
  rewrite !digit_char_is_digit; [reflexivity | |].
  - apply N.mod_lt; lia.
  - apply N.Div0.div_lt_upper_bound; lia.
Qed.

Lemma parseInt_two_digits (n : N) :
  n < 100 -> parseInt (two_digits n) = Int (Z.of_N n).
Proof.
  intros H. rewrite parseInt_numeric by (apply two_digits_numeric; assumption).
  do 2 f_equal. unfold decimal_value, two_digits, digit_char.
  cbn [fold_left]. rewrite !(N.add_comm 48), !N.add_sub.
  rewrite (N.div_mod n 10) at 3 by lia. lia.
Qed.

Lemma numeric_exclude (x : char) (t : jsstring) :
  is_digit x = false -> numeric t = true -> ~ In x t.
Proof.
  intros Hx Ht. apply numeric_spec in Ht.
  apply digits_exclude; tauto.
Qed.

(** The generator reads a valid time back as its hour and minute. *)
Lemma time_fields_valid (c : CronConfig) (h m : N) :
  h < 24 -> m < 60 -> time c = Some (hhmm h m) ->
  time_fields c = (Some (Int (Z.of_N h)), Some (Int (Z.of_N m))).
Proof.
  intros Hh Hm Ht. unfold time_fields. rewrite Ht.
  change (or_string (Some (hhmm h m)) (str "00:00"))
    with (two_digits h ++ 58 :: two_digits m).
  rewrite split_app
    by (apply numeric_exclude; [reflexivity | apply two_digits_numeric; lia]).
  rewrite split_free
    by (apply numeric_exclude; [reflexivity | apply two_digits_numeric; lia]).
  cbn [List.map nth_error].
  rewrite !parseInt_two_digits by lia. reflexivity.
Qed.

Lemma number_to_string_of_N (n : N) :
  number_to_string (Int (Z.of_N n)) = N_to_string n.
Proof.
  unfold number_to_string.
  destruct (Z.ltb_spec (Z.of_N n) 0) as [H|H]; [lia|].
  rewrite Zabs2N.id. reflexivity.
Qed.

Lemma N_to_string_exclude (x : char) (n : N) :
  is_digit x = false -> ~ In x (N_to_string n).
Proof. intros Hx. apply digits_exclude; [assumption | apply N_to_string_digits]. Qed.

Lemma N_to_string_not_star (n : N) : N_to_string n <> star.
Proof.
  intros E. apply (N_to_string_exclude 42 n); [reflexivity|].
  rewrite E. left; reflexivity.
Qed.

(** Five space-free pieces joined by single spaces cut back into the
    same five pieces. *)
Lemma split_five (a b c d e : jsstring) :
  ~ In 32 a -> ~ In 32 b -> ~ In 32 c -> ~ In 32 d -> ~ In 32 e ->
  split 32 (a ++ str " " ++ b ++ str " " ++ c ++ str " " ++ d ++ str " " ++ e)
  = [a; b; c; d; e].
Proof.
  intros Ha Hb Hc Hd He. change (str " ") with [32]. cbn [app].
  rewrite !split_app by assumption.
  rewrite split_free by assumption. reflexivity.
Qed.

(** Cutting into five given pieces means being those pieces, free of
    spaces, with single spaces between them. *)
Lemma split_five_iff (cron a b c d e : jsstring) :
  split 32 cron = [a; b; c; d; e]
  <-> cron
      = a ++ str " " ++ b ++ str " " ++ c ++ str " " ++ d ++ str " " ++ e
      /\ Forall (fun w => ~ In 32 w) [a; b; c; d; e].
Proof.
  split.
  - intros H. split.
    + rewrite <- (join_split 32 cron), H. reflexivity.
    + rewrite <- H. apply split_pieces_free.
  - intros [-> H].
    repeat match goal with
           | F : Forall _ (_ :: _) |- _ => apply Forall_cons_iff in F; destruct F
           end.
    apply split_five; assumption.
Qed.

Lemma star_no_space : ~ In 32 star.
Proof. intros [H|[]]; discriminate. Qed.

Lemma number_to_string_digits (k : Z) :
  (0 <= k)%Z -> Forall (fun c => is_digit c = true) (number_to_string (Int k)).
Proof.
  intros H. rewrite <- (Z2N.id k) by assumption.
  rewrite number_to_string_of_N. apply N_to_string_digits.
Qed.

Lemma digits_not_star (s : jsstring) :
  Forall (fun c => is_digit c = true) s -> s <> star.
Proof.
  intros H E. apply (digits_exclude 42 s); [reflexivity | assumption|].
  rewrite E. left; reflexivity.
Qed.

(** Parsing five space-free pieces joined by single spaces. *)
Lemma parse_five (a b c d e : jsstring) :
  ~ In 32 a -> ~ In 32 b -> ~ In 32 c -> ~ In 32 d -> ~ In 32 e ->
  let cron :=
    a ++ str " " ++ b ++ str " " ++ c ++ str " " ++ d ++ str " " ++ e in
  parseExpression cron = Some (classify cron a b c d e).
Proof.
  intros Ha Hb Hc Hd He cron. apply parseExpression_classify.
  apply split_five; assumption.
Qed.

(** What the parser makes of a generated time. *)
Lemma time_of_generated (h m : N) :
  h < 24 -> m < 60 -> time_of (N_to_string h) (N_to_string m) = hhmm h m.
Proof.
  intros Hh Hm. unfold time_of, hhmm.
  rewrite !N_to_string_below_100 by lia. reflexivity.
Qed.

(** C1: generating a cron expression from a valid Daily, Monthly or
    Weekly configuration and parsing it back gives a configuration of
    the same kind with the same time, the same day of month for Monthly,
    and the same weekdays in the same order for Weekly. *)
Theorem generate_parse_roundtrip :
  forall c : CronConfig,
    valid_config c ->
    exists c' : CronConfig,
      parseExpression (generateExpression c) = Some c' /\ same_schedule c c'.
Proof.
  intros c [[h [m [Hh [Hm Ht]]]] Hkind].
  pose proof (time_fields_valid c h m Hh Hm Ht) as Htf.
  assert (Sm : ~ In 32 (N_to_string m))
    by (apply N_to_string_exclude; reflexivity).
  assert (Sh : ~ In 32 (N_to_string h))
    by (apply N_to_string_exclude; reflexivity).
  pose proof (N_to_string_not_star m) as Nm.
  pose proof (N_to_string_not_star h) as Nh.
  pose proof star_no_space as Ss.
  destruct Hkind as [Hty | [[Hty [k [Hk Hday]]] | [Hty [ks [Hne [Hks Hdays]]]]]].
  - (* Daily *)
    assert (G : generateExpression c
                = N_to_string m ++ str " " ++ N_to_string h ++ str " "
                  ++ star ++ str " " ++ star ++ str " " ++ star).
    { unfold generateExpression. rewrite Htf, Hty.
      cbn [tmpl_number]. rewrite !number_to_string_of_N. reflexivity. }
    rewrite G, parse_five by assumption.
    rewrite classify_daily by assumption.
    eexists; split; [reflexivity|].
    unfold same_schedule; cbn [type time day days]. rewrite Hty, Ht.
    rewrite time_of_generated by assumption.
    repeat split; discriminate.
  - (* Monthly *)
    set (D := number_to_string (Int k)).
    assert (HD : Forall (fun x => is_digit x = true) D)
      by (apply number_to_string_digits; lia).
    assert (G : generateExpression c
                = N_to_string m ++ str " " ++ N_to_string h ++ str " "
                  ++ D ++ str " " ++ star ++ str " " ++ star).
    { unfold generateExpression. rewrite Htf, Hty, Hday.
      cbn [tmpl_number or_number truthy].
      replace (k =? 0)%Z with false by (symmetry; apply Z.eqb_neq; lia).
      rewrite !number_to_string_of_N. reflexivity. }
    rewrite G, parse_five
      by (assumption || (apply digits_exclude; [reflexivity | assumption])).
    rewrite classify_monthly
      by (assumption || (apply digits_not_star; assumption)).
    eexists; split; [reflexivity|].
    unfold same_schedule; cbn [type time day days]. rewrite Hty, Ht, Hday.
    rewrite time_of_generated by assumption.
    unfold D. rewrite parseInt_number_to_string.
    repeat split; discriminate.
  - (* Weekly *)
    set (toks := List.map number_to_string (List.map Int ks)).
    assert (HT : Forall (fun t => Forall (fun x => is_digit x = true) t) toks).
    { unfold toks. rewrite map_map. apply Forall_map.
      eapply Forall_impl; [|exact Hks].
      intros k Hk; cbv beta in Hk; apply number_to_string_digits; lia. }
    assert (G : generateExpression c
                = N_to_string m ++ str " " ++ N_to_string h ++ str " "
                  ++ star ++ str " " ++ star ++ str " "
                  ++ join (str ",") toks).
    { unfold generateExpression. rewrite Htf, Hty, Hdays.
      cbn [tmpl_number or_array]. rewrite !number_to_string_of_N.
      reflexivity. }
    assert (Sw : ~ In 32 (join (str ",") toks))
      by (apply join_digits_exclude; [reflexivity | discriminate | assumption]).
    assert (Nw : join (str ",") toks <> star).
    { intros E. apply (join_digits_exclude 42 toks);
        [reflexivity | discriminate | assumption|].
      rewrite E; left; reflexivity. }
    rewrite G, parse_five by assumption.
    rewrite classify_weekly by assumption.
    eexists; split; [reflexivity|].
    unfold same_schedule; cbn [type time day days]. rewrite Hty, Ht, Hdays.
    rewrite time_of_generated by assumption.
    change (str ",") with [44]. rewrite split_join.
    + unfold toks. rewrite !map_map.
      rewrite (map_ext _ Int) by (intros k; apply parseInt_number_to_string).
      repeat split; discriminate.
    + unfold toks. destruct ks; [contradiction | discriminate].
    + eapply Forall_impl; [|exact HT].
      intros t Hd; apply digits_exclude; [reflexivity | assumption].
Qed.

Lemma generate_parse_roundtrip_witness :
  exists c' : CronConfig,
    parseExpression
      (generateExpression
         (mkConfig (str "weekly") (Some (str "09:05"))
            (Some [Int 5; Int 1; Int 1]) None None))
    = Some c'
    /\ same_schedule
         (mkConfig (str "weekly") (Some (str "09:05"))
            (Some [Int 5; Int 1; Int 1]) None None) c'.
Proof.
  apply generate_parse_roundtrip. split.
  - exists 9, 5. repeat split; reflexivity.
  - right; right. split; [reflexivity|].
    exists [5; 1; 1]%Z. repeat split; try discriminate.
    repeat constructor; lia.
Defined.

Example roundtrip_samples :
  parseExpression
    (generateExpression
       (mkConfig (str "daily") (Some (str "23:59")) None None None))
  = Some (mkConfig (str "daily") (Some (str "23:59")) None None None)
  /\ parseExpression
       (generateExpression
          (mkConfig (str "monthly") (Some (str "00:00")) None
             (Some (Int 31)) None))
     = Some (mkConfig (str "monthly") (Some (str "00:00")) None
               (Some (Int 31)) None)
  /\ generateExpression
       (mkConfig (str "daily") (Some (str "00:00")) None None None)
     = str "0 0 * * *".
Proof. repeat split. Qed.

(** ** Defaults of the generator *)

(** C3, as the specification states it, fails: a time that is present
    but is not of the form HH:MM is not replaced by ["00:00"].  Its
    pieces go through [parseInt]; here the hour is [NaN] and the minute,
    which the split does not provide, is [undefined]. *)
Lemma generate_unrecognized_time :
  let c := mkConfig (str "daily") (Some (str "noon")) None None None in
  ~ valid_time (time c)
  /\ time_fields c = (Some NaN, None)
  /\ generateExpression c = str "undefined NaN * * *"
  /\ generateExpression c <> str "0 0 * * *".
Proof.
  repeat split; try discriminate.
  intros [h [m [_ [_ E]]]]. discriminate E.
Qed.

Example generate_malformed_times :
  generateExpression
    (mkConfig (str "daily") (Some (str "12:ab")) None None None)
  = str "NaN 12 * * *"
  /\ generateExpression
       (mkConfig (str "monthly") (Some (str "7")) None (Some (Int 4)) None)
     = str "undefined 7 4 * *".
Proof. repeat split. Qed.

(** C3 (amended): [generateExpression] returns a string for every
    configuration.  A time that is absent or empty counts as ["00:00"],
    hour 0 and minute 0; a time that is present and not empty is never
    replaced: hour and minute are [parseInt] of its first and second
    piece between colons.  An absent day of month prints as 1, an absent
    weekday list as an empty last field, a Custom configuration without
    expression as ["0 0 * * *"], and so does every unrecognized kind. *)
Theorem generate_defaults :
  forall c : CronConfig,
    let hour := tmpl_number (fst (time_fields c)) in
    let minute := tmpl_number (snd (time_fields c)) in
    (time c = None \/ time c = Some [] ->
     time_fields c = (Some (Int 0), Some (Int 0))
     /\ hour = str "0" /\ minute = str "0")
    /\ (forall t, time c = Some t -> t <> [] ->
        time_fields c
        = (nth_error (List.map parseInt (split 58 t)) 0,
           nth_error (List.map parseInt (split 58 t)) 1))
    /\ (type c = str "daily" ->
        generateExpression c = minute ++ str " " ++ hour ++ str " * * *")
    /\ (type c = str "weekly" -> days c = None ->
        generateExpression c = minute ++ str " " ++ hour ++ str " * * ")
    /\ (type c = str "monthly" -> day c = None ->
        generateExpression c = minute ++ str " " ++ hour ++ str " 1 * *")
    /\ (type c = str "custom" -> expression c = None ->
        generateExpression c = str "0 0 * * *")
    /\ (type c <> str "daily" -> type c <> str "weekly" ->
        type c <> str "monthly" -> type c <> str "custom" ->
        generateExpression c = str "0 0 * * *").
Proof.
  intros c hour minute. subst hour minute.
  split.
  { intros H.
    assert (E : time_fields c = (Some (Int 0), Some (Int 0)))
      by (unfold time_fields; destruct H as [-> | ->]; reflexivity).
    rewrite E. repeat split. }
  split.
  { intros t Ht Hne. unfold time_fields. rewrite Ht.
    destruct t as [|x t]; [contradiction | reflexivity]. }
  unfold generateExpression. destruct (time_fields c) as [hh mm].
  cbn [fst snd].
  repeat split.
  - intros ->. reflexivity.
  - intros -> ->. reflexivity.
  - intros -> ->. reflexivity.
  - intros -> ->. reflexivity.
  - intros H1 H2 H3 H4.
    rewrite (streq_neq _ _ H1), (streq_neq _ _ H2), (streq_neq _ _ H3),
      (streq_neq _ _ H4).
    reflexivity.
Qed.

Example generate_default_samples :
  generateExpression (mkConfig (str "daily") None None None None)
  = str "0 0 * * *"
  /\ generateExpression (mkConfig (str "weekly") None None None None)
     = str "0 0 * * "
  /\ generateExpression (mkConfig (str "monthly") None None None None)
     = str "0 0 1 * *"
  /\ generateExpression (mkConfig (str "custom") None None None None)
     = str "0 0 * * *"
  /\ generateExpression
       (mkConfig (str "hourly") (Some (str "09:30")) None None None)
     = str "0 0 * * *".
Proof. repeat split. Qed.

(** ** Parsing, then generating *)

Lemma or_string_some (s dflt : jsstring) :
  s <> [] -> or_string (Some s) dflt = s.
Proof. destruct s; [contradiction | reflexivity]. Qed.

Lemma padStart_digits (s : jsstring) :
  Forall (fun c => is_digit c = true) s ->
  Forall (fun c => is_digit c = true) (padStart 2 48 s).
Proof.
  intros H. unfold padStart. apply Forall_app. split; [|assumption].
  apply Forall_forall. intros x Hx. apply repeat_spec in Hx. subst x.
  reflexivity.
Qed.

Lemma padStart_not_nil (s : jsstring) : padStart 2 48 s <> [].
Proof.
  unfold padStart. destruct s as [|c s]; [discriminate|].
  intros E. apply app_eq_nil in E. destruct E; discriminate.
Qed.

Lemma fold_digits_zeros (k : nat) (s : jsstring) :
  fold_left (fun a c => a * 10 + (c - 48)) (repeat 48 k ++ s) 0
  = fold_left (fun a c => a * 10 + (c - 48)) s 0.
Proof. induction k as [|k IH]; [reflexivity | exact IH]. Qed.

Lemma decimal_value_N_to_string (n : N) : decimal_value (N_to_string n) = n.
Proof.
  assert (H : parseInt (N_to_string n)
              = Int (Z.of_N (decimal_value (N_to_string n)))).
  { apply parseInt_numeric, numeric_spec.
    split; [apply N_to_string_not_nil | apply N_to_string_digits]. }
  rewrite parseInt_N_to_string in H. inversion H. lia.
Qed.

(** Zero padding does not change what [parseInt] reads. *)
Lemma parseInt_padStart (n : N) :
  parseInt (padStart 2 48 (N_to_string n)) = Int (Z.of_N n).
Proof.
  rewrite parseInt_numeric.
  - unfold decimal_value, padStart. rewrite fold_digits_zeros.
    fold (decimal_value (N_to_string n)).
    rewrite decimal_value_N_to_string. reflexivity.
  - apply numeric_spec. split; [apply padStart_not_nil|].
    apply padStart_digits, N_to_string_digits.
Qed.

(** The generator reads the time the parser builds back as the two
    numbers it was built from. *)
Lemma time_fields_time_of (c : CronConfig) (h m : N) :
  time c = Some (time_of (N_to_string h) (N_to_string m)) ->
  time_fields c = (Some (Int (Z.of_N h)), Some (Int (Z.of_N m))).
Proof.
  intros Ht. unfold time_fields. rewrite Ht.
  assert (D : forall n, ~ In 58 (padStart 2 48 (N_to_string n))).
  { intros n. apply digits_exclude; [reflexivity|].
    apply padStart_digits, N_to_string_digits. }
  rewrite or_string_some.
  - unfold time_of. change (str ":") with [58]. cbn [app].
    rewrite split_app, split_free by apply D.
    cbn [List.map nth_error]. rewrite !parseInt_padStart. reflexivity.
  - unfold time_of. intros E. apply app_eq_nil in E.
    destruct E as [E _]. exact (padStart_not_nil _ E).
Qed.

Lemma join_N_to_string_exclude (x : char) (ns : list N) :
  is_digit x = false -> x <> 44 ->
  ~ In x (join (str ",") (List.map N_to_string ns)).
Proof.
  intros Hx Hc. apply join_digits_exclude; try assumption.
  apply Forall_map, Forall_forall. intros n _. apply N_to_string_digits.
Qed.

Lemma parse_daily_cron (m h : N) :
  parseExpression (daily_cron m h)
  = Some (mkConfig (str "daily")
            (Some (time_of (N_to_string h) (N_to_string m))) None None None).
Proof.
  change (daily_cron m h)
    with (N_to_string m ++ str " " ++ N_to_string h ++ str " "
          ++ star ++ str " " ++ star ++ str " " ++ star).
  rewrite parse_five, classify_daily;
    auto using N_to_string_not_star, star_no_space.
  all: apply N_to_string_exclude; reflexivity.
Qed.

Lemma parse_monthly_cron (m h k : N) :
  parseExpression (monthly_cron m h k)
  = Some (mkConfig (str "monthly")
            (Some (time_of (N_to_string h) (N_to_string m))) None
            (Some (Int (Z.of_N k))) None).
Proof.
  change (monthly_cron m h k)
    with (N_to_string m ++ str " " ++ N_to_string h ++ str " "
          ++ N_to_string k ++ str " " ++ star ++ str " " ++ star).
  rewrite parse_five, classify_monthly;
    auto using N_to_string_not_star, star_no_space.
  - rewrite parseInt_N_to_string. reflexivity.
  - apply N_to_string_exclude; reflexivity.
  - apply N_to_string_exclude; reflexivity.
  - apply N_to_string_exclude; reflexivity.
Qed.

Lemma parse_weekly_cron (m h : N) (ns : list N) :
  ns <> [] ->
  parseExpression (weekly_cron m h ns)
  = Some (mkConfig (str "weekly")
            (Some (time_of (N_to_string h) (N_to_string m)))
            (Some (List.map (fun n => Int (Z.of_N n)) ns)) None None).
Proof.
  intros Hne.
  change (weekly_cron m h ns)
    with (N_to_string m ++ str " " ++ N_to_string h ++ str " "
          ++ star ++ str " " ++ star ++ str " "
          ++ join (str ",") (List.map N_to_string ns)).
  assert (Nw : join (str ",") (List.map N_to_string ns) <> star).
  { intros E. apply (join_N_to_string_exclude 42 ns);
      [reflexivity | discriminate|].
    rewrite E; left; reflexivity. }
  rewrite parse_five, classify_weekly;
    auto using N_to_string_not_star, star_no_space.
  - change (str ",") with [44]. rewrite split_join.
    + rewrite map_map.
      rewrite (map_ext _ (fun n => Int (Z.of_N n)))
        by (intros n; apply parseInt_N_to_string).
      reflexivity.
    + destruct ns; [contradiction | discriminate].
    + apply Forall_map, Forall_forall. intros n _.
      apply N_to_string_exclude; reflexivity.
  - apply N_to_string_exclude; reflexivity.
  - apply N_to_string_exclude; reflexivity.
  - apply join_N_to_string_exclude; [reflexivity | discriminate].
Qed.

(** X1: parsing a canonical expression and generating from the result
    gives the expression back, for every minute, hour, non-zero day of
    month and non-empty weekday list of integers below 2^53 - leading
    zeros added by the parser are dropped again by the generator. *)
Theorem parse_generate_canonical :
  forall cron : jsstring,
    canonical cron ->
    exists c : CronConfig,
      parseExpression cron = Some c /\ generateExpression c = cron.
Proof.
  intros cron
    [[m [h [_ [_ ->]]]]
    | [[m [h [k [_ [_ [_ [Hk ->]]]]]]] | [m [h [ns [_ [_ [_ [Hne ->]]]]]]]]].
  - rewrite parse_daily_cron. eexists; split; [reflexivity|].
    unfold generateExpression.
    rewrite (time_fields_time_of _ h m) by reflexivity.
    cbn [type tmpl_number]. rewrite !number_to_string_of_N. reflexivity.
  - rewrite parse_monthly_cron. eexists; split; [reflexivity|].
    unfold generateExpression.
    rewrite (time_fields_time_of _ h m) by reflexivity.
    cbn [type day tmpl_number or_number truthy].
    replace (Z.of_N k =? 0)%Z with false by (symmetry; apply Z.eqb_neq; lia).
    cbn [negb]. rewrite !number_to_string_of_N. reflexivity.
  - rewrite parse_weekly_cron by assumption.
    eexists; split; [reflexivity|].
    unfold generateExpression.
    rewrite (time_fields_time_of _ h m) by reflexivity.
    cbn [type days tmpl_number or_array]. rewrite !number_to_string_of_N.
    rewrite map_map.
    rewrite (map_ext _ N_to_string) by (intros n; apply number_to_string_of_N).
    reflexivity.
Qed.

Lemma parse_generate_canonical_witness :
  exists c : CronConfig,
    parseExpression (str "5 9 * * 5,1,1") = Some c
    /\ generateExpression c = str "5 9 * * 5,1,1".
Proof.
  apply (parse_generate_canonical (str "5 9 * * 5,1,1")).
  right; right. exists 5, 9, [5; 1; 1].
  split; [reflexivity|]. split; [reflexivity|].
  split; [repeat constructor|]. split; [discriminate | reflexivity].
Defined.

(** What the preconditions exclude: day 0 comes back as 1 and an empty
    weekday field comes back as [NaN]; beyond 2^53 JavaScript rounds what
    it parses and, from 10^21 on, prints an exponent. *)
Example parse_generate_not_canonical :
  option_map generateExpression (parseExpression (str "0 0 0 * *"))
  = Some (str "0 0 1 * *")
  /\ option_map generateExpression (parseExpression (str "0 9 * * "))
     = Some (str "0 9 * * NaN")
  /\ option_map generateExpression (parseExpression (str "05 09 * * *"))
     = Some (str "5 9 * * *").
Proof. repeat split. Qed.

(** ** The kinds the parser assigns *)

Lemma streq_star_dec (s : jsstring) :
  (streq s star = true /\ s = star) \/ (streq s star = false /\ s <> star).
Proof.
  destruct (streq s star) eqn:E.
  - left; split; [reflexivity | apply streq_spec; assumption].
  - right; split; [reflexivity|].
    intros H; apply streq_spec in H; congruence.
Qed.

Lemma classify_kinds (cron minute hour day month weekday : jsstring) :
  let c := classify cron minute hour day month weekday in
  (type c = str "daily" /\ time c = Some (time_of hour minute))
  \/ (type c = str "weekly" /\ time c = Some (time_of hour minute))
  \/ (type c = str "monthly" /\ time c = Some (time_of hour minute))
  \/ (type c = str "custom" /\ c = mkConfig (str "custom") None None None
                                     (Some cron)).
Proof.
  unfold classify.
  repeat match goal with
         | |- context [if ?b then _ else _] => destruct b
         end; cbn; auto.
Qed.

Lemma parse_pieces (cron : jsstring) (c : CronConfig) :
  parseExpression cron = Some c ->
  exists minute hour day month weekday,
    split 32 cron = [minute; hour; day; month; weekday]
    /\ c = classify cron minute hour day month weekday.
Proof.
  intros H.
  destruct (split 32 cron) as [|a [|b [|x [|d [|e [|f l]]]]]] eqn:E;
    try (unfold parseExpression in H; rewrite E in H; discriminate).
  rewrite (parseExpression_classify _ _ _ _ _ _ E) in H.
  inversion H. eauto 10.
Qed.

(** X2: every configuration the parser returns is of one of the four
    kinds, so the [default] arm of [humanReadable] is dead: no input is
    ever described as ["Invalid schedule"]. *)
Theorem never_invalid_schedule :
  forall cron : jsstring,
    humanReadable cron <> str "Invalid schedule"
    /\ (forall c, parseExpression cron = Some c ->
        type c = str "daily" \/ type c = str "weekly"
        \/ type c = str "monthly" \/ type c = str "custom").
Proof.
  intros cron.
  assert (K : forall c, parseExpression cron = Some c ->
              type c = str "daily" \/ type c = str "weekly"
              \/ type c = str "monthly" \/ type c = str "custom").
  { intros c H. apply parse_pieces in H.
    destruct H as [mi [h [d [mo [w [_ ->]]]]]].
    pose proof (classify_kinds cron mi h d mo w) as C. cbv zeta in C.
    tauto. }
  split; [|exact K].
  unfold humanReadable. destruct (parseExpression cron) as [c|] eqn:E;
    [|discriminate].
  unfold describe.
  destruct (K c eq_refl) as [T|[T|[T|T]]]; rewrite T; cbn; discriminate.
Qed.

(** X3: among the inputs that cut into five pieces, the ones classified
    Custom are exactly those with ["*"] as minute or hour, a month other
    than ["*"], or both a day of month and a weekday. *)
Theorem custom_iff :
  forall cron minute hour day month weekday : jsstring,
    split 32 cron = [minute; hour; day; month; weekday] ->
    ((exists c, parseExpression cron = Some c /\ type c = str "custom")
     <-> minute = star \/ hour = star \/ month <> star
         \/ (day <> star /\ weekday <> star)).
Proof.
  intros cron mi h d mo w H.
  rewrite (parseExpression_classify _ _ _ _ _ _ H).
  unfold classify.
  destruct (streq_star_dec mi) as [[-> Emi]|[-> Emi]];
    destruct (streq_star_dec h) as [[-> Eh]|[-> Eh]];
    destruct (streq_star_dec d) as [[-> Ed]|[-> Ed]];
    destruct (streq_star_dec mo) as [[-> Emo]|[-> Emo]];
    destruct (streq_star_dec w) as [[-> Ew]|[-> Ew]];
    cbn [negb andb];
    (split;
     [ intros [c [Hc Hty]]; inversion Hc; subst c; cbn in Hty;
       try discriminate Hty; tauto
     | intros Hr; try (exfalso; tauto); eexists; split; reflexivity ]).
Qed.

Lemma custom_iff_witness :
  (exists c, parseExpression (str "*/5 * * * *") = Some c
             /\ type c = str "custom")
  <-> str "*/5" = star \/ star = star \/ star <> star
      \/ (star <> star /\ star <> star).
Proof.
  apply (custom_iff (str "*/5 * * * *") (str "*/5") star star star star).
  reflexivity.
Defined.

Lemma split_nil_single (cron : jsstring) :
  List.length (split 32 cron) = 5%nat -> cron <> [].
Proof. intros H E. subst cron. discriminate H. Qed.

(** X4: an input classified Custom is kept verbatim: it is the
    [expression] of the result, the generator gives it back unchanged,
    and [humanReadable] shows it after ["Custom: "]. *)
Theorem custom_verbatim :
  forall (cron : jsstring) (c : CronConfig),
    parseExpression cron = Some c ->
    type c = str "custom" ->
    expression c = Some cron
    /\ generateExpression c = cron
    /\ humanReadable cron = str "Custom: " ++ cron.
Proof.
  intros cron c H Hty.
  assert (Hne : cron <> []).
  { apply split_nil_single.
    destruct (Nat.eq_dec (List.length (split 32 cron)) 5) as [E|E];
      [assumption|].
    apply parseExpression_none in E. congruence. }
  pose proof H as H'. apply parse_pieces in H'.
  destruct H' as [mi [h [d [mo [w [_ Hc]]]]]].
  pose proof (classify_kinds cron mi h d mo w) as C. cbv zeta in C.
  rewrite <- Hc in C.
  destruct C as [[T _]|[[T _]|[[T _]|[_ C]]]];
    try (rewrite T in Hty; discriminate Hty).
  unfold humanReadable. rewrite H. rewrite C.
  repeat split.
  unfold generateExpression. cbn [type expression].
  destruct (time_fields _). cbn.
  apply or_string_some; assumption.
Qed.

Lemma custom_verbatim_witness :
  expression (mkConfig (str "custom") None None None
                (Some (str "*/5 * * * *")))
  = Some (str "*/5 * * * *")
  /\ generateExpression
       (mkConfig (str "custom") None None None (Some (str "*/5 * * * *")))
     = str "*/5 * * * *"
  /\ humanReadable (str "*/5 * * * *") = str "Custom: */5 * * * *".
Proof.
  apply (custom_verbatim (str "*/5 * * * *")); reflexivity.
Defined.

(** X5: a Daily input is described by its padded time, whatever its
    minute and hour pieces are. *)
Theorem daily_description :
  forall cron minute hour : jsstring,
    split 32 cron = [minute; hour; star; star; star] ->
    minute <> star -> hour <> star ->
    humanReadable cron
    = str "Daily at " ++ padStart 2 48 hour ++ str ":" ++ padStart 2 48 minute.
Proof.
  intros cron mi h H Hm Hh. unfold humanReadable.
  rewrite (parseExpression_classify _ _ _ _ _ _ H).
  rewrite classify_daily by assumption. reflexivity.
Qed.

Lemma daily_description_witness :
  humanReadable (str "5 9 * * *") = str "Daily at 09:05".
Proof.
  apply (daily_description (str "5 9 * * *") (str "5") (str "9"));
    [reflexivity | discriminate | discriminate].
Defined.

(** ** Generating, then parsing, for arbitrary configurations *)

Lemma digits_not_reserved (s : jsstring) (x : char) :
  Forall (fun c => is_digit c = true) s -> In x s -> ~ reserved x.
Proof.
  intros H Hin. rewrite Forall_forall in H. specialize (H _ Hin).
  apply is_digit_spec in H. unfold reserved. lia.
Qed.

Lemma number_to_string_plain (a : number) (x : char) :
  In x (number_to_string a) -> ~ reserved x.
Proof.
  destruct a as [|z]; unfold number_to_string.
  - cbn. unfold reserved. lia.
  - destruct (z <? 0)%Z.
    + change (str "-" ++ N_to_string (Z.abs_N z))
        with (45 :: N_to_string (Z.abs_N z)).
      intros [E|Hin]; [unfold reserved; lia|].
      exact (digits_not_reserved _ x (N_to_string_digits _) Hin).
    + apply digits_not_reserved, N_to_string_digits.
Qed.

Lemma tmpl_number_plain (a : option number) (x : char) :
  In x (tmpl_number a) -> ~ reserved x.
Proof.
  destruct a as [a|]; [apply number_to_string_plain|].
  cbn. unfold reserved. lia.
Qed.

Lemma days_list_plain (ds : list number) (x : char) :
  In x (join (str ",") (List.map number_to_string ds)) -> x <> 32 /\ x <> 42.
Proof.
  intros Hin. change (str ",") with [44] in Hin. apply in_join in Hin.
  destruct Hin as [[E|[]]|[s [Hs Hx]]]; [lia|].
  apply in_map_iff in Hs. destruct Hs as [a [<- _]].
  apply number_to_string_plain in Hx. unfold reserved in Hx. lia.
Qed.

Lemma plain_no_space (s : jsstring) :
  (forall x, In x s -> ~ reserved x) -> ~ In 32 s /\ s <> star.
Proof.
  intros H. split.
  - intros Hin. apply (H _ Hin). left; reflexivity.
  - intros E. apply (H 42); [rewrite E; left; reflexivity|].
    right; left; reflexivity.
Qed.

(** X6: whatever its fields hold, a configuration that is not Custom
    generates an expression the parser accepts, and a Daily, Weekly or
    Monthly configuration comes back with its own kind. *)
Theorem generated_always_parses :
  forall c : CronConfig,
    type c <> str "custom" ->
    exists c' : CronConfig,
      parseExpression (generateExpression c) = Some c'
      /\ (type c = str "daily" \/ type c = str "weekly"
          \/ type c = str "monthly" -> type c' = type c).
Proof.
  intros c Hc. unfold generateExpression.
  destruct (time_fields c) as [hh mm].
  destruct (plain_no_space _ (tmpl_number_plain hh)) as [Sh Nh].
  destruct (plain_no_space _ (tmpl_number_plain mm)) as [Sm Nm].
  pose proof star_no_space as Ss.
  destruct (streq (type c) (str "daily")) eqn:Ed.
  { apply streq_spec in Ed.
    change (tmpl_number mm ++ str " " ++ tmpl_number hh ++ str " * * *")
      with (tmpl_number mm ++ str " " ++ tmpl_number hh ++ str " "
            ++ star ++ str " " ++ star ++ str " " ++ star).
    rewrite parse_five, classify_daily by assumption.
    eexists; split; [reflexivity | intros _; symmetry; exact Ed]. }
  destruct (streq (type c) (str "weekly")) eqn:Ew.
  { apply streq_spec in Ew.
    set (W := join (str ",") (List.map number_to_string (or_array (days c)))).
    assert (HW : ~ In 32 W /\ W <> star).
    { split.
      - intros Hin. apply days_list_plain in Hin. lia.
      - intros E.
        assert (Hin : In 42 W) by (rewrite E; left; reflexivity).
        apply days_list_plain in Hin. lia. }
    destruct HW as [Sw Nw].
    change (tmpl_number mm ++ str " " ++ tmpl_number hh ++ str " * * " ++ W)
      with (tmpl_number mm ++ str " " ++ tmpl_number hh ++ str " "
            ++ star ++ str " " ++ star ++ str " " ++ W).
    rewrite parse_five, classify_weekly by assumption.
    eexists; split; [reflexivity | intros _; symmetry; exact Ew]. }
  destruct (streq (type c) (str "monthly")) eqn:Em.
  { apply streq_spec in Em.
    set (D := number_to_string (or_number (day c) (Int 1))).
    destruct (plain_no_space D (number_to_string_plain _)) as [Sd Nd].
    change (tmpl_number mm ++ str " " ++ tmpl_number hh ++ str " " ++ D
            ++ str " * *")
      with (tmpl_number mm ++ str " " ++ tmpl_number hh ++ str " "
            ++ D ++ str " " ++ star ++ str " " ++ star).
    rewrite parse_five, classify_monthly by assumption.
    eexists; split; [reflexivity | intros _; symmetry; exact Em]. }
  rewrite (streq_neq _ _ Hc).
  eexists; split; [reflexivity|].
  intros [E|[E|E]]; apply streq_spec in E; congruence.
Qed.

Lemma generated_always_parses_witness :
  exists c' : CronConfig,
    parseExpression
      (generateExpression
         (mkConfig (str "daily") (Some (str "noon")) None None None))
    = Some c'
    /\ (str "daily" = str "daily" \/ str "daily" = str "weekly"
        \/ str "daily" = str "monthly" -> type c' = str "daily").
Proof.
  apply (generated_always_parses
           (mkConfig (str "daily") (Some (str "noon")) None None None)).
  discriminate.
Defined.

(** A Custom configuration is the one that can generate an expression
    the parser refuses. *)
Example custom_may_not_parse :
  parseExpression
    (generateExpression
       (mkConfig (str "custom") None None None (Some (str "every day"))))
  = None.
Proof. reflexivity. Qed.

Lemma generate_weekly_valid (c : CronConfig) (h m : N) :
  h < 24 -> m < 60 -> type c = str "weekly" -> time c = Some (hhmm h m) ->
  generateExpression c
  = N_to_string m ++ str " " ++ N_to_string h ++ str " "
    ++ star ++ str " " ++ star ++ str " "
    ++ join (str ",") (List.map number_to_string (or_array (days c))).
Proof.
  intros Hh Hm Hty Ht. unfold generateExpression.
  rewrite (time_fields_valid c h m Hh Hm Ht), Hty.
  cbn [tmpl_number]. rewrite !number_to_string_of_N. reflexivity.
Qed.

Lemma generate_weekly_empty (c : CronConfig) (h m : N) :
  h < 24 -> m < 60 -> type c = str "weekly" -> time c = Some (hhmm h m) ->
  or_array (days c) = [] ->
  generateExpression c
  = N_to_string m ++ str " " ++ N_to_string h ++ str " "
    ++ star ++ str " " ++ star ++ str " " ++ [].
Proof.
  intros Hh Hm Hty Ht Hd.
  rewrite (generate_weekly_valid c h m Hh Hm Hty Ht), Hd. reflexivity.
Qed.

Lemma weekly_empty_parse (c : CronConfig) (h m : N) :
  h < 24 -> m < 60 -> type c = str "weekly" -> time c = Some (hhmm h m) ->
  or_array (days c) = [] ->
  parseExpression (generateExpression c)
  = Some (mkConfig (str "weekly") (Some (hhmm h m)) (Some [NaN]) None None).
Proof.
  intros Hh Hm Hty Ht Hd.
  rewrite (generate_weekly_empty c h m Hh Hm Hty Ht Hd).
  rewrite parse_five, classify_weekly;
    auto using N_to_string_not_star, star_no_space.
  - rewrite time_of_generated by assumption. reflexivity.
  - discriminate.
  - apply N_to_string_exclude; reflexivity.
  - apply N_to_string_exclude; reflexivity.
Qed.

(** X7: a Weekly configuration with a valid time and no weekday does
    not survive the round trip: the generator leaves the last field
    empty, the parser reads that field as the single weekday [NaN], and
    the description names no day. *)
Theorem weekly_without_days :
  forall (c : CronConfig) (h m : N),
    h < 24 -> m < 60 ->
    type c = str "weekly" -> time c = Some (hhmm h m) ->
    or_array (days c) = [] ->
    generateExpression c
    = N_to_string m ++ str " " ++ N_to_string h ++ str " * * "
    /\ parseExpression (generateExpression c)
       = Some (mkConfig (str "weekly") (Some (hhmm h m)) (Some [NaN])
                 None None)
    /\ humanReadable (generateExpression c)
       = str "Weekly on  at " ++ hhmm h m.
Proof.
  intros c h m Hh Hm Hty Ht Hd.
  pose proof (weekly_empty_parse c h m Hh Hm Hty Ht Hd) as P.
  split; [|split; [exact P|]].
  - rewrite (generate_weekly_empty c h m Hh Hm Hty Ht Hd). reflexivity.
  - unfold humanReadable. rewrite P. reflexivity.
Qed.

Lemma weekly_without_days_witness :
  generateExpression
    (mkConfig (str "weekly") (Some (str "09:00")) (Some []) None None)
  = str "0 9 * * "
  /\ parseExpression
       (generateExpression
          (mkConfig (str "weekly") (Some (str "09:00")) (Some []) None None))
     = Some (mkConfig (str "weekly") (Some (str "09:00")) (Some [NaN])
               None None)
  /\ humanReadable
       (generateExpression
          (mkConfig (str "weekly") (Some (str "09:00")) (Some []) None None))
     = str "Weekly on  at 09:00".
Proof.
  apply (weekly_without_days
           (mkConfig (str "weekly") (Some (str "09:00")) (Some []) None None)
           9 0);
    reflexivity.
Defined.

(** ** The day buttons: [toggleDay] *)

(** On weekday numbers the default sort order, which compares the
    printed numbers as strings, is the numeric order. *)
Lemma weekday_str_ltb (a b : Z) :
  (0 <= a <= 6)%Z -> (0 <= b <= 6)%Z ->
  str_ltb (number_to_string (Int a)) (number_to_string (Int b))
  = (a <? b)%Z.
Proof.
  intros Ha Hb.
  assert (Ea : (a = 0 \/ a = 1 \/ a = 2 \/ a = 3 \/ a = 4 \/ a = 5 \/ a = 6)%Z)
    by lia.
  assert (Eb : (b = 0 \/ b = 1 \/ b = 2 \/ b = 3 \/ b = 4 \/ b = 5 \/ b = 6)%Z)
    by lia.
  repeat (destruct Ea as [Ea|Ea]; [subst a|]); try subst a;
    repeat (destruct Eb as [Eb|Eb]; [subst b; reflexivity|]);
    subst b; reflexivity.
Qed.

Lemma insert_sorted_perm (x : number) (l : list number) :
  Permutation (x :: l) (insert_sorted x l).
Proof.
  induction l as [|y l IH]; cbn [insert_sorted]; [reflexivity|].
  destruct (str_ltb _ _); [|reflexivity].
  rewrite perm_swap. constructor. exact IH.
Qed.

(** The default sort rearranges and neither adds nor drops. *)
Lemma sort_default_perm (l : list number) : Permutation l (sort_default l).
Proof.
  induction l as [|x l IH]; [reflexivity|].
  unfold sort_default in *. cbn [fold_right].
  rewrite <- insert_sorted_perm. constructor. exact IH.
Qed.

Lemma selection_cons (a : Z) (l : list Z) :
  weekday_selection (a :: l)
  <-> (0 <= a <= 6)%Z /\ Forall (fun x => (a < x)%Z) l /\ weekday_selection l.
Proof.
  unfold weekday_selection. split.
  - intros [S R]. inversion S; subst. inversion R; subst. tauto.
  - intros [Ha [Hl [S R]]]. split; constructor; assumption.
Qed.

(** Inserting a new weekday into a selection keeps it a selection. *)
Lemma insert_weekday (a : Z) (l : list Z) :
  weekday_selection l -> (0 <= a <= 6)%Z -> ~ In a l ->
  exists l', insert_sorted (Int a) (List.map Int l) = List.map Int l'
             /\ weekday_selection l'
             /\ (forall x, In x l' <-> x = a \/ In x l).
Proof.
  induction l as [|y l IH]; intros Hs Ha Hn.
  - exists [a]. split; [reflexivity|]. split.
    + apply selection_cons. split; [exact Ha|]. split; [constructor|].
      split; constructor.
    + intros x; simpl; intuition.
  - apply selection_cons in Hs. destruct Hs as [Hy [Hl Hs]].
    cbn [List.map insert_sorted]. rewrite weekday_str_ltb by assumption.
    destruct (Z.ltb_spec y a) as [Hlt|Hge].
    + destruct (IH Hs Ha) as [l' [E [S' M]]]; [simpl in Hn; tauto|].
      exists (y :: l'). split; [rewrite E; reflexivity|]. split.
      * apply selection_cons. split; [lia|]. split; [|assumption].
        apply Forall_forall. intros x Hx. apply M in Hx.
        destruct Hx as [->|Hx]; [assumption|].
        rewrite Forall_forall in Hl. auto.
      * intros x. simpl. rewrite M. tauto.
    + assert (a < y)%Z by (simpl in Hn; lia).
      exists (a :: y :: l). split; [reflexivity|]. split.
      * apply selection_cons. split; [lia|]. split.
        -- constructor; [assumption|].
           eapply Forall_impl; [|exact Hl]. intros x Hx; cbv beta in Hx; lia.
        -- apply selection_cons. auto.
      * intros x; simpl;
          split; (intros [E|E]; [left; congruence | right; exact E]).
Qed.

(** Sorting distinct weekdays onto a selection gives the selection of
    all of them. *)
Lemma sort_onto_selection (ks acc : list Z) :
  weekday_selection acc ->
  Forall (fun k => (0 <= k <= 6)%Z) ks -> NoDup ks ->
  (forall x, In x ks -> ~ In x acc) ->
  exists l', fold_right insert_sorted (List.map Int acc) (List.map Int ks)
             = List.map Int l'
             /\ weekday_selection l'
             /\ (forall x, In x l' <-> In x ks \/ In x acc).
Proof.
  induction ks as [|a ks IH]; intros Hacc Hr Hnd Hdis.
  - exists acc. simpl. tauto.
  - inversion Hr; subst. inversion Hnd; subst.
    destruct IH as [l1 [E [S1 M1]]]; auto.
    { intros x Hx. apply Hdis. right; assumption. }
    destruct (insert_weekday a l1) as [l2 [E2 [S2 M2]]]; auto.
    { rewrite M1. intros [Hin|Hin]; [contradiction|].
      apply (Hdis a); [left; reflexivity | assumption]. }
    exists l2. cbn [List.map fold_right]. rewrite E, E2.
    split; [reflexivity|]. split; [assumption|].
    intros x. rewrite M2, M1. simpl. intuition.
Qed.

Lemma selection_NoDup (ks : list Z) : weekday_selection ks -> NoDup ks.
Proof.
  induction ks as [|a ks IH]; intros H; [constructor|].
  apply selection_cons in H. destruct H as [_ [Hl Hs]].
  constructor; [|auto].
  intros Hin. rewrite Forall_forall in Hl. specialize (Hl _ Hin). lia.
Qed.

Lemma includes_weekday (ks : list Z) (k : Z) :
  includes (List.map Int ks) (Int k) = true <-> In k ks.
Proof.
  unfold includes. rewrite existsb_exists. split.
  - intros [e [Hin He]]. apply in_map_iff in Hin.
    destruct Hin as [x [<- Hx]]. simpl in He. apply Z.eqb_eq in He.
    subst; assumption.
  - intros Hin. exists (Int k). split; [apply in_map; assumption|].
    simpl. apply Z.eqb_refl.
Qed.

Lemma filter_weekday (ks : list Z) (k : Z) :
  filter (fun d => negb (number_eqb d (Int k))) (List.map Int ks)
  = List.map Int (filter (fun x => negb (x =? k)%Z) ks).
Proof.
  induction ks as [|a ks IH]; [reflexivity|].
  cbn [List.map filter number_eqb]. rewrite IH.
  destruct (a =? k)%Z; reflexivity.
Qed.

Lemma selection_filter (f : Z -> bool) (ks : list Z) :
  weekday_selection ks -> weekday_selection (filter f ks).
Proof.
  induction ks as [|a ks IH]; intros H; [exact H|].
  apply selection_cons in H. destruct H as [Ha [Hl Hs]].
  cbn [filter]. destruct (f a); [|auto].
  apply selection_cons. split; [lia|]. split; [|auto].
  apply Forall_forall. intros x Hx. apply filter_In in Hx.
  rewrite Forall_forall in Hl. apply Hl; tauto.
Qed.

Lemma toggled_onto :
  forall (ks : list Z) (k : Z),
    weekday_selection ks -> (0 <= k <= 6)%Z ->
    exists ks' : list Z,
      toggled (List.map Int ks) (Int k) = List.map Int ks'
      /\ weekday_selection ks'
      /\ (forall x, In x ks' <-> (In x ks /\ x <> k) \/ (x = k /\ ~ In k ks)).
Proof.
  intros ks k Hs Hk. unfold toggled.
  destruct (includes (List.map Int ks) (Int k)) eqn:E.
  - apply includes_weekday in E.
    exists (filter (fun x => negb (x =? k)%Z) ks).
    split; [apply filter_weekday|]. split; [apply selection_filter; exact Hs|].
    intros x. rewrite filter_In, negb_true_iff, Z.eqb_neq. tauto.
  - assert (Hn : ~ In k ks).
    { intros Hin. apply includes_weekday in Hin. congruence. }
    unfold sort_default. rewrite fold_right_app.
    change (fold_right insert_sorted [] [Int k]) with (List.map Int [k]).
    destruct (sort_onto_selection ks [k]) as [l' [El [Sl Ml]]].
    + apply selection_cons. split; [exact Hk|]. split; [constructor|].
      split; constructor.
    + apply Hs.
    + apply selection_NoDup; exact Hs.
    + intros x Hx [<-|[]]. contradiction.
    + exists l'. split; [exact El|]. split; [exact Sl|].
      intros x. rewrite Ml. simpl.
      destruct (Z.eq_dec x k) as [->|Hne]; intuition.
Qed.

(** X8: on a selection of weekdays - integers from 0 to 6 in strictly
    ascending order - [toggleDay] computes a selection again, in which
    the membership of the toggled day is flipped and every other day is
    as before. *)
Theorem toggled_selection :
  forall (ks : list Z) (k : Z),
    weekday_selection ks -> (0 <= k <= 6)%Z ->
    exists ks' : list Z,
      toggled (List.map Int ks) (Int k) = List.map Int ks'
      /\ weekday_selection ks'
      /\ (forall x, In x ks' <-> (In x ks /\ x <> k) \/ (x = k /\ ~ In k ks)).
Proof. exact toggled_onto. Qed.

Lemma toggled_selection_witness :
  exists ks' : list Z,
    toggled (List.map Int [1; 5]%Z) (Int 3) = List.map Int ks'
    /\ weekday_selection ks'
    /\ (forall x, In x ks'
                  <-> (In x [1; 5]%Z /\ x <> 3%Z)
                      \/ (x = 3%Z /\ ~ In 3%Z [1; 5]%Z)).
Proof.
  apply (toggled_selection [1; 5]%Z 3%Z); [|lia].
  split; repeat constructor; lia.
Defined.

(** Outside that domain the comparison is the one of strings, and a day
    that occurs twice is removed twice. *)
Example toggled_samples :
  toggled [Int 1; Int 5] (Int 3) = [Int 1; Int 3; Int 5]
  /\ toggled [Int 9] (Int 10) = [Int 10; Int 9]
  /\ toggled [Int 5; Int 1; Int 1] (Int 1) = [Int 5]
  /\ toggled [Int 5; Int 1] (Int 3) = [Int 1; Int 3; Int 5]
  /\ toggled [NaN] NaN = [NaN].
Proof. repeat split. Qed.

(** Two selections with the same days are the same list. *)
Lemma selection_ext (l1 l2 : list Z) :
  weekday_selection l1 -> weekday_selection l2 ->
  (forall x, In x l1 <-> In x l2) -> l1 = l2.
Proof.
  revert l2; induction l1 as [|a l1 IH]; intros [|b l2] H1 H2 M.
  - reflexivity.
  - exfalso. apply (M b). left; reflexivity.
  - exfalso. apply (M a). left; reflexivity.
  - apply selection_cons in H1. destruct H1 as [Ha [L1 S1]].
    apply selection_cons in H2. destruct H2 as [Hb [L2 S2]].
    rewrite Forall_forall in L1, L2.
    assert (a = b).
    { destruct (proj1 (M a) (or_introl eq_refl)) as [E|Hin]; [auto|].
      destruct (proj2 (M b) (or_introl eq_refl)) as [E|Hin']; [auto|].
      specialize (L1 _ Hin'). specialize (L2 _ Hin). lia. }
    subst b. f_equal. apply IH; auto.
    intros x. split; intros Hx.
    + destruct (proj1 (M x) (or_intror Hx)) as [E|Hin]; [|assumption].
      subst x. specialize (L1 _ Hx). lia.
    + destruct (proj2 (M x) (or_intror Hx)) as [E|Hin]; [|assumption].
      subst x. specialize (L2 _ Hx). lia.
Qed.

(** X9: on a selection of weekdays, toggling the same day twice gives
    the selection back. *)
Theorem toggled_twice :
  forall (ks : list Z) (k : Z),
    weekday_selection ks -> (0 <= k <= 6)%Z ->
    toggled (toggled (List.map Int ks) (Int k)) (Int k) = List.map Int ks.
Proof.
  intros ks k Hs Hk.
  destruct (toggled_onto ks k Hs Hk) as [l1 [E1 [S1 M1]]].
  destruct (toggled_onto l1 k S1 Hk) as [l2 [E2 [S2 M2]]].
  rewrite E1, E2. f_equal. apply selection_ext; auto.
  intros x. rewrite M2, !M1.
  destruct (Z.eq_dec x k) as [->|Hne]; [|tauto].
  destruct (in_dec Z.eq_dec k ks); tauto.
Qed.

Lemma toggled_twice_witness :
  toggled (toggled (List.map Int [1; 5]%Z) (Int 3)) (Int 3)
  = List.map Int [1; 5]%Z.
Proof.
  apply (toggled_twice [1; 5]%Z 3%Z); [|lia].
  split; repeat constructor; lia.
Defined.

(** ** The component: mounting and the event handlers *)

Lemma time_of_not_nil (hour minute : jsstring) : time_of hour minute <> [].
Proof.
  unfold time_of. intros E. apply app_eq_nil in E. destruct E as [E _].
  exact (padStart_not_nil _ E).
Qed.

(** X10: mounted on a value the parser refuses, the builder starts as
    if no value had been passed - Daily at 00:00, no weekday, day 1 and
    the custom text ["0 0 * * *"] - while [CronDisplay] reports the same
    value as invalid. *)
Theorem mount_unparsable :
  forall value : jsstring,
    parseExpression value = None ->
    initialState (Some value) = initialState None
    /\ initialState None
       = mkState (str "daily") (str "00:00") [] (Int 1) (str "0 0 * * *")
    /\ humanReadable value = str "Invalid cron expression".
Proof.
  intros value H. split; [|split; [reflexivity|]].
  - unfold initialState. rewrite H. reflexivity.
  - unfold humanReadable. rewrite H. reflexivity.
Qed.

Lemma mount_unparsable_witness :
  initialState (Some (str "every day")) = initialState None
  /\ initialState None
     = mkState (str "daily") (str "00:00") [] (Int 1) (str "0 0 * * *")
  /\ humanReadable (str "every day") = str "Invalid cron expression".
Proof. apply (mount_unparsable (str "every day")). reflexivity. Defined.

(** X11: mounting the builder on a canonical expression (its numbers
    below 2^53), or on one the parser classifies Custom, and selecting
    the kind it already shows makes it emit that very expression. *)
Theorem mount_reselect :
  forall cron : jsstring,
    canonical cron
    \/ (exists c, parseExpression cron = Some c /\ type c = str "custom") ->
    let s := initialState (Some cron) in
    snd (handleTypeChange s (Some (scheduleType s))) = Some cron.
Proof.
  intros cron
    [[[m [h [_ [_ ->]]]]
     | [[m [h [k [_ [_ [_ [Hk ->]]]]]]] | [m [h [ns [_ [_ [_ [Hne ->]]]]]]]]]
    | [c [Hc Hty]]]; cbv zeta; unfold initialState.
  - rewrite parse_daily_cron. cbn [type time days day expression].
    rewrite or_string_some by apply time_of_not_nil.
    cbn [handleTypeChange snd scheduleType time' selectedDays monthDay
           customExpression].
    f_equal. unfold generateExpression.
    rewrite (time_fields_time_of _ h m) by reflexivity.
    cbn [type tmpl_number]. rewrite !number_to_string_of_N. reflexivity.
  - rewrite parse_monthly_cron. cbn [type time days day expression].
    rewrite or_string_some by apply time_of_not_nil.
    assert (T : or_number (Some (Int (Z.of_N k))) (Int 1) = Int (Z.of_N k)).
    { cbn [or_number truthy].
      replace (Z.of_N k =? 0)%Z with false
        by (symmetry; apply Z.eqb_neq; lia).
      reflexivity. }
    rewrite T.
    cbn [handleTypeChange snd scheduleType time' selectedDays monthDay
           customExpression].
    f_equal. unfold generateExpression.
    rewrite (time_fields_time_of _ h m) by reflexivity.
    cbn [type day tmpl_number]. rewrite T, !number_to_string_of_N.
    reflexivity.
  - rewrite parse_weekly_cron by assumption.
    cbn [type time days day expression].
    rewrite or_string_some by apply time_of_not_nil.
    cbn [handleTypeChange snd scheduleType time' selectedDays monthDay
           customExpression or_array].
    f_equal. unfold generateExpression.
    rewrite (time_fields_time_of _ h m) by reflexivity.
    cbn [type days tmpl_number or_array]. rewrite !number_to_string_of_N.
    rewrite map_map.
    rewrite (map_ext _ N_to_string) by (intros n; apply number_to_string_of_N).
    reflexivity.
  - rewrite Hc.
    assert (Hne : cron <> []).
    { apply split_nil_single.
      destruct (Nat.eq_dec (List.length (split 32 cron)) 5) as [E|E];
        [assumption|].
      apply parseExpression_none in E. congruence. }
    pose proof Hc as H'. apply parse_pieces in H'.
    destruct H' as [mi [h [d [mo [w [_ Ec]]]]]].
    pose proof (classify_kinds cron mi h d mo w) as C. cbv zeta in C.
    rewrite <- Ec in C.
    destruct C as [[T _]|[[T _]|[[T _]|[_ C]]]];
      try (rewrite T in Hty; discriminate Hty).
    rewrite C. cbn [type time days day expression].
    rewrite (or_string_some cron) by assumption.
    cbn [handleTypeChange snd scheduleType time' selectedDays monthDay
           customExpression].
    f_equal. unfold generateExpression. destruct (time_fields _).
    cbn. apply or_string_some; assumption.
Qed.

Lemma mount_reselect_witness :
  snd (handleTypeChange (initialState (Some (str "30 14 * * 1,3,5")))
         (Some (scheduleType (initialState (Some (str "30 14 * * 1,3,5"))))))
  = Some (str "30 14 * * 1,3,5").
Proof.
  apply (mount_reselect (str "30 14 * * 1,3,5")).
  left; right; right. exists 30, 14, [1; 3; 5].
  split; [reflexivity|]. split; [reflexivity|].
  split; [repeat constructor|]. split; [discriminate | reflexivity].
Defined.

(** In Custom mode the handlers of the other kinds build a
    configuration without [expression]. *)
Lemma generate_custom_without_expression (t : option jsstring)
  (ds : option (list number)) (d : option number) :
  generateExpression (mkConfig (str "custom") t ds d None) = str "0 0 * * *".
Proof.
  unfold generateExpression. destruct (time_fields _). reflexivity.
Qed.

(** X12: while the kind is Custom, [handleTimeChange], [toggleDay] and
    [handleMonthDayChange] discard the custom text and emit
    ["0 0 * * *"], whatever their argument; only [handleTypeChange]
    emits the custom text. *)
Theorem custom_mode_emissions :
  forall (s : BuilderState) (newTime text : jsstring) (dayIndex : number),
    scheduleType s = str "custom" ->
    snd (handleTimeChange s newTime) = str "0 0 * * *"
    /\ snd (toggleDay s dayIndex) = str "0 0 * * *"
    /\ snd (handleMonthDayChange s text) = str "0 0 * * *"
    /\ (customExpression s <> [] ->
        snd (handleTypeChange s (Some (str "custom")))
        = Some (customExpression s)).
Proof.
  intros s newTime text dayIndex Hty.
  unfold handleTimeChange, toggleDay, handleMonthDayChange, handleTypeChange.
  cbn [snd]. rewrite Hty, !generate_custom_without_expression.
  repeat split. intros Hne. f_equal.
  unfold generateExpression. destruct (time_fields _). cbn.
  apply or_string_some; assumption.
Qed.

Lemma custom_mode_emissions_witness :
  let s := mkState (str "custom") (str "09:00") [Int 1] (Int 4)
             (str "*/5 * * * *") in
  snd (handleTimeChange s (str "10:30")) = str "0 0 * * *"
  /\ snd (toggleDay s (Int 2)) = str "0 0 * * *"
  /\ snd (handleMonthDayChange s (str "7")) = str "0 0 * * *"
  /\ (customExpression s <> [] ->
      snd (handleTypeChange s (Some (str "custom")))
      = Some (customExpression s)).
Proof.
  apply (custom_mode_emissions
           (mkState (str "custom") (str "09:00") [Int 1] (Int 4)
              (str "*/5 * * * *"))
           (str "10:30") (str "7") (Int 2)).
  reflexivity.
Defined.

(** Generating from a Weekly configuration with a valid time and
    weekdays that are non-negative integers, then parsing. *)
Lemma parse_generate_weekly (c : CronConfig) (h m : N) (ks : list Z) :
  h < 24 -> m < 60 -> type c = str "weekly" -> time c = Some (hhmm h m) ->
  or_array (days c) = List.map Int ks -> ks <> [] ->
  Forall (fun k => (0 <= k)%Z) ks ->
  parseExpression (generateExpression c)
  = Some (mkConfig (str "weekly") (Some (hhmm h m)) (Some (List.map Int ks))
            None None).
Proof.
  intros Hh Hm Hty Ht Hd Hne Hks.
  rewrite (generate_weekly_valid c h m Hh Hm Hty Ht), Hd.
  set (toks := List.map number_to_string (List.map Int ks)).
  assert (HT : Forall (fun t => Forall (fun x => is_digit x = true) t) toks).
  { unfold toks. rewrite map_map. apply Forall_map.
    eapply Forall_impl; [|exact Hks].
    intros k Hk; cbv beta in Hk; apply number_to_string_digits; lia. }
  assert (Nw : join (str ",") toks <> star).
  { intros E. apply (join_digits_exclude 42 toks);
      [reflexivity | discriminate | assumption|].
    rewrite E; left; reflexivity. }
  rewrite parse_five, classify_weekly;
    auto using N_to_string_not_star, star_no_space.
  - rewrite time_of_generated by assumption.
    change (str ",") with [44]. rewrite split_join.
    + unfold toks. rewrite !map_map.
      rewrite (map_ext _ Int) by (intros k; apply parseInt_number_to_string).
      reflexivity.
    + unfold toks. destruct ks; [contradiction | discriminate].
    + eapply Forall_impl; [|exact HT].
      intros t Hd'; apply digits_exclude; [reflexivity | assumption].
  - apply N_to_string_exclude; reflexivity.
  - apply N_to_string_exclude; reflexivity.
  - apply join_digits_exclude; [reflexivity | discriminate | assumption].
Qed.

Lemma selection_nonneg (ks : list Z) :
  weekday_selection ks -> Forall (fun k => (0 <= k)%Z) ks.
Proof.
  intros [_ H]. eapply Forall_impl; [|exact H].
  intros k Hk; cbv beta in Hk; lia.
Qed.

(** X13: in Weekly mode with a valid time, pressing a day button on a
    selection of weekdays emits an expression that parses back to the
    new selection, as long as a day remains selected; when the last
    selected day is released the state holds the empty selection while
    the emitted expression parses to the weekday list [[NaN]]. *)
Theorem toggleDay_weekly :
  forall (s : BuilderState) (h m : N) (ks : list Z) (k : Z),
    scheduleType s = str "weekly" -> time' s = hhmm h m ->
    h < 24 -> m < 60 ->
    selectedDays s = List.map Int ks -> weekday_selection ks ->
    (0 <= k <= 6)%Z ->
    let s' := fst (toggleDay s (Int k)) in
    let e := snd (toggleDay s (Int k)) in
    selectedDays s' = toggled (List.map Int ks) (Int k)
    /\ (selectedDays s' <> [] ->
        parseExpression e
        = Some (mkConfig (str "weekly") (Some (hhmm h m))
                  (Some (selectedDays s')) None None))
    /\ (selectedDays s' = [] ->
        parseExpression e
        = Some (mkConfig (str "weekly") (Some (hhmm h m)) (Some [NaN])
                  None None)).
Proof.
  intros s h m ks k Hty Ht Hh Hm Hd Hs Hk s' e. subst s' e.
  unfold toggleDay. cbn [fst snd selectedDays]. rewrite Hty, Ht, Hd.
  split; [reflexivity|].
  destruct (toggled_onto ks k Hs Hk) as [ks' [E [S' _]]]. rewrite E.
  split.
  - intros Hne.
    apply parse_generate_weekly; auto using selection_nonneg.
    intros ->. apply Hne. reflexivity.
  - intros Hnil. apply (weekly_empty_parse _ h m); auto.
Qed.

Lemma toggleDay_weekly_witness :
  let s := mkState (str "weekly") (str "09:00") [Int 1] (Int 1)
             (str "0 0 * * *") in
  let s' := fst (toggleDay s (Int 1)) in
  let e := snd (toggleDay s (Int 1)) in
  selectedDays s' = toggled (List.map Int [1%Z]) (Int 1)
  /\ (selectedDays s' <> [] ->
      parseExpression e
      = Some (mkConfig (str "weekly") (Some (hhmm 9 0))
                (Some (selectedDays s')) None None))
  /\ (selectedDays s' = [] ->
      parseExpression e
      = Some (mkConfig (str "weekly") (Some (hhmm 9 0)) (Some [NaN])
                None None)).
Proof.
  apply (toggleDay_weekly
           (mkState (str "weekly") (str "09:00") [Int 1] (Int 1)
              (str "0 0 * * *"))
           9 0 [1%Z] 1%Z);
    try reflexivity; try lia.
  split; repeat constructor; lia.
Defined.

(** Releasing the only selected day, step by step. *)
Example toggleDay_last_day :
  toggleDay
    (mkState (str "weekly") (str "09:00") [Int 1] (Int 1) (str "0 0 * * *"))
    (Int 1)
  = (mkState (str "weekly") (str "09:00") [] (Int 1) (str "0 0 * * *"),
     str "0 9 * * ")
  /\ humanReadable (str "0 9 * * ") = str "Weekly on  at 09:00".
Proof. repeat split. Qed.

Lemma or_number_int (a : number) :
  exists z : Z, or_number (Some a) (Int 1) = Int z /\ z <> 0%Z.
Proof.
  destruct a as [|z]; cbn [or_number truthy].
  - exists 1%Z. split; [reflexivity | lia].
  - destruct (Z.eqb_spec z 0); cbn [negb].
    + exists 1%Z. split; [reflexivity | lia].
    + exists z. split; [reflexivity | assumption].
Qed.

(** X14: in Monthly mode with a valid time, for a text in the day field
    that [parseInt] reads as [NaN] or as an integer below 2^53 in
    magnitude, the emitted expression parses as Monthly with the day
    [parseInt(text) || 1], a non-zero integer; the state keeps
    [parseInt(text)] itself, so an empty or non-numeric text leaves [NaN]
    in the state and day 1 in the expression. *)
Theorem monthDay_change :
  forall (s : BuilderState) (h m : N) (text : jsstring),
    scheduleType s = str "monthly" -> time' s = hhmm h m ->
    h < 24 -> m < 60 ->
    safe_number (parseInt text) ->
    let s' := fst (handleMonthDayChange s text) in
    let e := snd (handleMonthDayChange s text) in
    monthDay s' = parseInt text
    /\ (exists z : Z,
           z <> 0%Z /\ or_number (Some (parseInt text)) (Int 1) = Int z
           /\ parseExpression e
              = Some (mkConfig (str "monthly") (Some (hhmm h m)) None
                        (Some (Int z)) None))
    /\ (parseInt text = NaN \/ parseInt text = Int 0 -> e = monthly_cron m h 1).
Proof.
  intros s h m text Hty Ht Hh Hm _ s' e. subst s' e.
  unfold handleMonthDayChange. cbn [fst snd monthDay].
  split; [reflexivity|].
  rewrite Hty, Ht.
  set (c := mkConfig (str "monthly") (Some (hhmm h m))
              (Some (selectedDays s)) (Some (parseInt text)) None).
  assert (G : generateExpression c
              = N_to_string m ++ str " " ++ N_to_string h ++ str " "
                ++ number_to_string (or_number (Some (parseInt text)) (Int 1))
                ++ str " " ++ star ++ str " " ++ star).
  { unfold generateExpression.
    rewrite (time_fields_valid c h m Hh Hm eq_refl).
    cbn [type day c tmpl_number]. rewrite !number_to_string_of_N.
    reflexivity. }
  split.
  - destruct (or_number_int (parseInt text)) as [z [Ez Hz]].
    exists z. split; [assumption|]. split; [assumption|].
    rewrite G, Ez.
    destruct (plain_no_space _ (number_to_string_plain (Int z))) as [Sd Nd].
    rewrite parse_five, classify_monthly;
      auto using N_to_string_not_star, star_no_space.
    + rewrite time_of_generated, parseInt_number_to_string by assumption.
      reflexivity.
    + apply N_to_string_exclude; reflexivity.
    + apply N_to_string_exclude; reflexivity.
  - intros H. rewrite G.
    assert (E : or_number (Some (parseInt text)) (Int 1) = Int 1)
      by (destruct H as [-> | ->]; reflexivity).
    rewrite E. reflexivity.
Qed.

Lemma monthDay_change_witness :
  let s := mkState (str "monthly") (str "09:00") [] (Int 4)
             (str "0 0 * * *") in
  let s' := fst (handleMonthDayChange s []) in
  let e := snd (handleMonthDayChange s []) in
  monthDay s' = parseInt []
  /\ (exists z : Z,
         z <> 0%Z /\ or_number (Some (parseInt [])) (Int 1) = Int z
         /\ parseExpression e
            = Some (mkConfig (str "monthly") (Some (hhmm 9 0)) None
                      (Some (Int z)) None))
  /\ (parseInt [] = NaN \/ parseInt [] = Int 0 -> e = monthly_cron 0 9 1).
Proof.
  apply (monthDay_change
           (mkState (str "monthly") (str "09:00") [] (Int 4)
              (str "0 0 * * *"))
           9 0 []);
    [reflexivity | reflexivity | reflexivity | reflexivity | exact I].
Defined.

Example monthDay_change_samples :
  handleMonthDayChange
    (mkState (str "monthly") (str "09:00") [] (Int 4) (str "0 0 * * *")) []
  = (mkState (str "monthly") (str "09:00") [] NaN (str "0 0 * * *"),
     str "0 9 1 * *")
  /\ snd (handleMonthDayChange
            (mkState (str "monthly") (str "09:00") [] (Int 4)
               (str "0 0 * * *")) (str "-5"))
     = str "0 9 -5 * *"
  /\ snd (handleMonthDayChange
            (mkState (str "monthly") (str "09:00") [] (Int 4)
               (str "0 0 * * *")) (str "31"))
     = str "0 9 31 * *".
Proof. repeat split. Qed.

(** X15: in Daily mode a valid time makes [handleTimeChange] emit the
    canonical Daily expression, which parses back to the very time the
    state now holds; a cleared time field leaves the empty string in the
    state and emits ["0 0 * * *"]. *)
Theorem timeChange_daily :
  forall (s : BuilderState) (h m : N),
    scheduleType s = str "daily" -> h < 24 -> m < 60 ->
    snd (handleTimeChange s (hhmm h m)) = daily_cron m h
    /\ parseExpression (snd (handleTimeChange s (hhmm h m)))
       = Some (mkConfig (str "daily")
                 (Some (time' (fst (handleTimeChange s (hhmm h m)))))
                 None None None)
    /\ handleTimeChange s []
       = (mkState (str "daily") [] (selectedDays s) (monthDay s)
            (customExpression s),
          str "0 0 * * *").
Proof.
  intros s h m Hty Hh Hm. unfold handleTimeChange. cbn [fst snd time'].
  rewrite Hty.
  assert (G : generateExpression
                (mkConfig (str "daily") (Some (hhmm h m))
                   (Some (selectedDays s)) (Some (monthDay s)) None)
              = daily_cron m h).
  { unfold generateExpression.
    rewrite (time_fields_valid
               (mkConfig (str "daily") (Some (hhmm h m))
                  (Some (selectedDays s)) (Some (monthDay s)) None)
               h m Hh Hm eq_refl).
    cbn [type tmpl_number]. rewrite !number_to_string_of_N. reflexivity. }
  rewrite G. split; [reflexivity|]. split; [|reflexivity].
  rewrite parse_daily_cron, time_of_generated by assumption. reflexivity.
Qed.

Lemma timeChange_daily_witness :
  let s := mkState (str "daily") (str "00:00") [] (Int 1) (str "0 0 * * *") in
  snd (handleTimeChange s (hhmm 14 30)) = daily_cron 30 14
  /\ parseExpression (snd (handleTimeChange s (hhmm 14 30)))
     = Some (mkConfig (str "daily")
               (Some (time' (fst (handleTimeChange s (hhmm 14 30)))))
               None None None)
  /\ handleTimeChange s []
     = (mkState (str "daily") [] (selectedDays s) (monthDay s)
          (customExpression s),
        str "0 0 * * *").
Proof.
  apply (timeChange_daily
           (mkState (str "daily") (str "00:00") [] (Int 1) (str "0 0 * * *"))
           14 30);
    reflexivity.
Defined.

(** X16: a text typed in the custom field that the parser classifies
    Custom is emitted unchanged, and a builder mounted on the emitted
    expression shows the Custom kind with that same text. *)
Theorem custom_text_reloads :
  forall (s : BuilderState) (text : jsstring) (c : CronConfig),
    parseExpression text = Some c -> type c = str "custom" ->
    let e := snd (handleCustomExpressionChange s text) in
    e = text
    /\ customExpression (fst (handleCustomExpressionChange s text)) = text
    /\ scheduleType (initialState (Some e)) = str "custom"
    /\ customExpression (initialState (Some e)) = text.
Proof.
  intros s text c H Hty e. subst e.
  assert (Hne : text <> []).
  { apply split_nil_single.
    destruct (Nat.eq_dec (List.length (split 32 text)) 5) as [E|E];
      [assumption|].
    apply parseExpression_none in E. congruence. }
  assert (G : snd (handleCustomExpressionChange s text) = text).
  { unfold handleCustomExpressionChange. cbn [snd].
    unfold generateExpression. destruct (time_fields _). cbn.
    apply or_string_some; assumption. }
  rewrite G. split; [reflexivity|]. split; [reflexivity|].
  pose proof H as H'. apply parse_pieces in H'.
  destruct H' as [mi [h [d [mo [w [_ Ec]]]]]].
  pose proof (classify_kinds text mi h d mo w) as C. cbv zeta in C.
  rewrite <- Ec in C.
  destruct C as [[T _]|[[T _]|[[T _]|[_ C]]]];
    try (rewrite T in Hty; discriminate Hty).
  unfold initialState. rewrite H, C. cbn [type expression customExpression
    scheduleType]. split; [reflexivity|].
  apply or_string_some; assumption.
Qed.

Lemma custom_text_reloads_witness :
  let s := mkState (str "custom") (str "00:00") [] (Int 1) (str "0 0 * * *") in
  let e := snd (handleCustomExpressionChange s (str "*/5 * * * *")) in
  e = str "*/5 * * * *"
  /\ customExpression (fst (handleCustomExpressionChange s (str "*/5 * * * *")))
     = str "*/5 * * * *"
  /\ scheduleType (initialState (Some e)) = str "custom"
  /\ customExpression (initialState (Some e)) = str "*/5 * * * *".
Proof.
  apply (custom_text_reloads
           (mkState (str "custom") (str "00:00") [] (Int 1) (str "0 0 * * *"))
           (str "*/5 * * * *")
           (mkConfig (str "custom") None None None
              (Some (str "*/5 * * * *"))));
    reflexivity.
Defined.

(** A custom text of another shape is emitted as typed too, but reloads
    under the kind the parser gives it; an empty text emits the
    default. *)
Example custom_text_samples :
  snd (handleCustomExpressionChange
         (mkState (str "custom") (str "00:00") [] (Int 1) (str "0 0 * * *"))
         (str "0 9 * * *"))
  = str "0 9 * * *"
  /\ scheduleType (initialState (Some (str "0 9 * * *"))) = str "daily"
  /\ customExpression (initialState (Some (str "0 9 * * *")))
     = str "0 0 * * *"
  /\ snd (handleCustomExpressionChange
            (mkState (str "custom") (str "00:00") [] (Int 1)
               (str "0 0 * * *")) [])
     = str "0 0 * * *".
Proof. repeat split. Qed.
